(** * ReSci: the sample-size calculator of [server/services/gemini.ts]

    A shallow embedding of [calculateSampleSize] and of the helpers it
    calls ([getZScore], [getPowerZScore], [inverseNormalCDF],
    [getFCritical], [calculateANOVASampleSize]).

    JavaScript numbers are IEEE 754 binary64 values: they are modelled by
    Rocq's primitive [float], whose operations are the processor's and are
    specified by [FloatAxioms] against [SpecFloat].  Strings are modelled
    by [string]; the engine only compares the test type with ASCII
    literals. *)

From Stdlib Require Import ZArith Lia Bool List String Ascii.
From Stdlib Require Import Floats.
Import ListNotations.

Set Warnings "-inexact-float".

(** ** Host functions of the JavaScript runtime *)

(** [String.prototype.toLowerCase], on the ASCII letters: the engine
    compares the lower-cased test type with ASCII literals only, so a match
    involves ASCII characters only. *)
Definition lower_ascii (c : ascii) : ascii :=
  let n := nat_of_ascii c in
  if (65 <=? n)%nat && (n <=? 90)%nat then ascii_of_nat (n + 32) else c.

Fixpoint toLowerCase (s : string) : string :=
  match s with
  | EmptyString => EmptyString
  | String c rest => String (lower_ascii c) (toLowerCase rest)
  end.

(** [String.prototype.includes]: [includes s needle] is [s.includes(needle)]. *)
Fixpoint startsWith (s needle : string) : bool :=
  match needle, s with
  | EmptyString, _ => true
  | String _ _, EmptyString => false
  | String a needle', String b s' => Ascii.eqb a b && startsWith s' needle'
  end.

Fixpoint includes (s needle : string) : bool :=
  startsWith s needle ||
  match s with
  | EmptyString => false
  | String _ s' => includes s' needle
  end.

(** [Math.abs]. *)
Definition Math_abs (x : float) : float := abs x.

(** The double of an integer between 0 and 2^53 (exact). *)
Definition float_of_Z (n : Z) : float := of_uint63 (Uint63.of_Z n).

(** [Math.ceil]: NaN, the infinities, the zeros and the integral values are
    returned unchanged; a value in (-1, 0) gives -0; any other value gives
    the least integral value above it.  A finite non-zero double is
    [(-1)^s * m * 2^e]; it is integral when [e >= 0] or when the low [-e]
    bits of [m] are zero, and it is below 2^53 in magnitude when [e < 0]. *)
Definition Math_ceil (x : float) : float :=
  match Prim2SF x with
  | S754_finite s m e =>
      if (0 <=? e)%Z then x
      else
        let k := (- e)%Z in
        let q := Z.shiftr (Zpos m) k in
        if (Z.shiftl q k =? Zpos m)%Z then x
        else if s then (if (q =? 0)%Z then neg_zero else (- float_of_Z q)%float)
        else float_of_Z (q + 1)
  | _ => x
  end.

(** An array read [a[i]]; a read past the end is [undefined], which is NaN
    in arithmetic. *)
Definition idx (a : list float) (i : nat) : float := nth i a nan.
Arguments idx a i%_nat.

(** ** Data model *)

Record SampleSizeParams := {
  testType : string;
  effectSize : float;
  power : float;
  alpha : float;
  groups : option float   (* optional, 2 when absent *)
}.

Record SampleSizeResult := {
  sampleSize : float;
  totalSampleSize : float;
  adjustedSampleSize : float;
  formula : string;
  assumptions : list string
}.

(** The [case] labels of the [switch] over the lower-cased test type. *)
Inductive TestFamily :=
  | TwoSample | Paired | OneWayAnova | Proportion | Correlation | DefaultFamily.

Definition dispatch (t : string) : TestFamily :=
  if (t =? "two-sample t-test")%string then TwoSample
  else if (t =? "independent t-test")%string then TwoSample
  else if (t =? "paired t-test")%string then Paired
  else if (t =? "dependent t-test")%string then Paired
  else if (t =? "one-way anova")%string then OneWayAnova
  else if (t =? "proportion test")%string then Proportion
  else if (t =? "chi-square test")%string then Proportion
  else if (t =? "correlation test")%string then Correlation
  else DefaultFamily.

(** ECMAScript leaves the value of [Math.log] and [Math.pow] to the
    implementation outside the cases it lists: a host supplies them. *)
Class MathHost := {
  log_approx : float -> float;
  pow_approx : float -> float -> float
}.

(** A host whose approximations answer NaN. *)
Definition nan_host : MathHost :=
  {| log_approx := fun _ => nan; pow_approx := fun _ _ => nan |}.

(** ** The engine *)

Section Engine.

Context {host : MathHost}.

Local Open Scope float_scope.

(** [Math.log]: NaN for NaN and for negative arguments, -Infinity at the
    zeros, +0 at 1, +Infinity at +Infinity. *)
Definition Math_log (x : float) : float :=
  if is_nan x then nan
  else if x <? 0 then nan
  else if x =? 0 then neg_infinity
  else if x =? 1 then 0
  else if x =? infinity then infinity
  else log_approx x.

(** [Math.pow]: every call of the module passes the literal exponent 2,
    where the engines multiply the base by itself. *)
Definition Math_pow (base exponent : float) : float :=
  if exponent =? 2 then base * base
  else pow_approx base exponent.

Definition coef_a : list float :=
  [0; -3.969683028665376e+01; 2.209460984245205e+02;
   -2.759285104469687e+02; 1.383577518672690e+02;
   -3.066479806614716e+01; 2.506628277459239e+00].

Definition coef_b : list float :=
  [0; -5.447609879822406e+01; 1.615858368580409e+02;
   -1.556989798598866e+02; 6.680131188771972e+01;
   -1.328068155288572e+01].

Definition coef_c : list float :=
  [0; -7.784894002430293e-03; -3.223964580411365e-01;
   -2.400758277161838e+00; -2.549732539343734e+00;
   4.374664141464968e+00; 2.938163982698783e+00].

Definition coef_d : list float :=
  [0; 7.784695709041462e-03; 3.224671290700398e-01;
   2.445134137142996e+00; 3.754408661907416e+00].

Definition inverseNormalCDF (p : float) : float :=
  let a := coef_a in
  let b := coef_b in
  let c := coef_c in
  let d := coef_d in
  let x := p - 0.5 in
  if Math_abs x <? 0.42 then
    let r := x * x in
    ((x * (((idx a 4 * r + idx a 3) * r + idx a 2) * r + idx a 1)) * r)
    + (idx a 0 / ((((idx b 4 * r + idx b 3) * r + idx b 2) * r + idx b 1) * r + 1))
  else
    let r := p in
    let r := if 0 <? x then 1 - p else r in
    let r := Math_log (- Math_log r) in
    let ret :=
      ((((((idx c 4 * r + idx c 3) * r + idx c 2) * r + idx c 1) * r)
        + ((idx c 0 / ((idx d 4 * r + idx d 3) * r + idx d 2)) * r))
       + (idx d 1 * r)) + 1 in
    if x <? 0 then - ret else ret.

Definition getFCritical (alpha df1 df2 : float) : float :=
  if (alpha =? 0.05) && (df1 =? 1) then 3.84
  else if (alpha =? 0.01) && (df1 =? 1) then 6.63
  else 3.84.

Definition calculateANOVASampleSize (effectSize power alpha groups : float) : float :=
  let zAlpha := 1.96 in
  let zBeta := 0.842 in
  (2 * Math_pow (zAlpha + zBeta) 2) / (groups * Math_pow effectSize 2).

Definition getZScore (p : float) : float :=
  if p =? 0.05 then 1.96
  else if p =? 0.01 then 2.576
  else if p =? 0.001 then 3.291
  else Math_abs (inverseNormalCDF (p / 2)).

Definition getPowerZScore (power : float) : float :=
  if power =? 0.8 then 0.842
  else if power =? 0.9 then 1.282
  else if power =? 0.95 then 1.645
  else Math_abs (inverseNormalCDF (1 - power)).

(** The body of the [switch]: the per-group size, the formula shown and the
    assumptions, for the family the lower-cased test type selects. *)
Definition branch (family : TestFamily) (effectSize power alpha groups : float)
  : float * string * list string :=
  match family with
  | TwoSample =>
      let zAlpha := getZScore alpha in
      let zBeta := getPowerZScore power in
      (Math_ceil ((2 * Math_pow (zAlpha + zBeta) 2) / Math_pow effectSize 2),
       "n = 2 × (z_α/2 + z_β)² / δ²"%string,
       ["Normal distribution"; "Equal variances"; "Independent observations";
        "Continuous outcome variable"]%string)
  | Paired =>
      let zAlphaPaired := getZScore alpha in
      let zBetaPaired := getPowerZScore power in
      (Math_ceil (Math_pow (zAlphaPaired + zBetaPaired) 2 / Math_pow effectSize 2),
       "n = (z_α/2 + z_β)² / δ²"%string,
       ["Normal distribution of differences"; "Paired observations";
        "Continuous outcome variable"]%string)
  | OneWayAnova =>
      let fEffect := effectSize in
      let sampleSize := Math_ceil (calculateANOVASampleSize fEffect power alpha groups) in
      let dfError := groups * (sampleSize - 1) in
      let fCritical := getFCritical alpha (groups - 1) dfError in
      (sampleSize,
       "n = λ / (k × f²) where λ is noncentrality parameter"%string,
       ["Normal distribution within groups"; "Equal variances (homoscedasticity)";
        "Independent observations"; "Continuous outcome variable"]%string)
  | Proportion =>
      let p1 := 0.5 in
      let p2 := p1 + effectSize in
      let pooledP := (p1 + p2) / 2 in
      let zAlphaProp := getZScore alpha in
      let zBetaProp := getPowerZScore power in
      (Math_ceil
         ((((2 * pooledP) * (1 - pooledP)) * Math_pow (zAlphaProp + zBetaProp) 2)
          / Math_pow (p2 - p1) 2),
       "n = 2 × p̄(1-p̄) × (z_α/2 + z_β)² / (p₂-p₁)²"%string,
       ["Binary outcome variable"; "Independent observations";
        "Adequate expected frequencies (≥5 per cell)"]%string)
  | Correlation =>
      let r := effectSize in
      let zR := 0.5 * Math_log ((1 + r) / (1 - r)) in
      let zAlphaCorr := getZScore alpha in
      let zBetaCorr := getPowerZScore power in
      (Math_ceil ((Math_pow (zAlphaCorr + zBetaCorr) 2 / Math_pow zR 2) + 3),
       "n = (z_α/2 + z_β)² / z_r² + 3"%string,
       ["Bivariate normal distribution"; "Linear relationship";
        "Independent observations"; "Continuous variables"]%string)
  | DefaultFamily =>
      let zAlphaDef := getZScore alpha in
      let zBetaDef := getPowerZScore power in
      (Math_ceil ((2 * Math_pow (zAlphaDef + zBetaDef) 2) / Math_pow effectSize 2),
       "n = 2 × (z_α/2 + z_β)² / δ²"%string,
       ["Normal distribution"; "Equal variances"; "Independent observations"]%string)
  end.

Definition calculateSampleSize (params : SampleSizeParams) : SampleSizeResult :=
  let testType := params.(testType) in
  let effectSize := params.(effectSize) in
  let power := params.(power) in
  let alpha := params.(alpha) in
  let groups := match params.(groups) with Some g => g | None => 2 end in
  let '(sampleSize, formula, assumptions) :=
    branch (dispatch (toLowerCase testType)) effectSize power alpha groups in
  let totalSampleSize :=
    if includes (toLowerCase testType) "paired" then sampleSize
    else sampleSize * groups in
  let adjustedSampleSize := Math_ceil (totalSampleSize * 1.2) in
  {| sampleSize := sampleSize;
     totalSampleSize := totalSampleSize;
     adjustedSampleSize := adjustedSampleSize;
     formula := formula;
     assumptions := assumptions |}.

End Engine.


(** ** Concrete calls *)

(** The inputs of the worked example: alpha 0.05, power 0.80, effect size
    0.5 and two groups, for a given test type. *)
Definition example_params (t : string) : SampleSizeParams :=
  {| testType := t; effectSize := 0.5; power := 0.8; alpha := 0.05;
     groups := Some 2%float |}.

(** The three numeric fields of a result. *)
Definition numeric_fields (r : SampleSizeResult) : float * float * float :=
  (sampleSize r, totalSampleSize r, adjustedSampleSize r).

(** The group count a call uses: [groups = 2] in the destructuring. *)
Definition groups_or_default (g : option float) : float :=
  match g with Some k => k | None => 2%float end.

(** A call for the one-way ANOVA family. *)
Definition anova_params (f pw al : float) (g : option float) : SampleSizeParams :=
  {| testType := "one-way anova"; effectSize := f; power := pw; alpha := al;
     groups := g |}.

(** A call for the correlation family. *)
Definition correlation_params (r pw al : float) (g : option float) : SampleSizeParams :=
  {| testType := "correlation test"; effectSize := r; power := pw; alpha := al;
     groups := g |}.

(** ** Doubles on the specification side *)

(** The doubles that are at least 1, on the specification side: a positive
    normal value with exponent at least -52, or +Infinity. *)
Definition at_least_one (x : spec_float) : Prop :=
  match x with
  | S754_finite false m e => (2 ^ 52 <= Zpos m < 2 ^ 53 /\ -52 <= e <= 971)%Z
  | S754_infinity false => True
  | _ => False
  end.


(** ** Sign of a double on the specification side *)

(** The sign bit is clear, or the value is NaN. *)
Definition sign_clear (x : spec_float) : bool :=
  match x with
  | S754_zero s | S754_infinity s | S754_finite s _ _ => negb s
  | S754_nan => true
  end.

(** ** Magnitude of a double on the specification side *)

(** The magnitude of a finite double m * 2^e: its value is at least
    2^(mag-1) and below 2^mag. *)
Definition mag (m : positive) (e : Z) : Z := (Zpos (digits2_pos m) + e)%Z.

(** +Infinity, or a positive double of magnitude at least [L]. *)
Definition ge_mag (L : Z) (x : spec_float) : Prop :=
  match x with
  | S754_infinity false => True
  | S754_finite false m e => (L <= mag m e)%Z
  | _ => False
  end.



(** ** JavaScript values and maps ([server/storage.ts]) *)

Set Warnings "-register-all".

(** A JSON value, as a [jsonb] column holds it. *)
Inductive Json :=
  | JNull
  | JBool (b : bool)
  | JNumber (x : float)
  | JString (s : string)
  | JArray (items : list Json)
  | JObject (fields : list (string * Json)).

(** Truthiness, as [||] reads its left operand: the empty string, 0, -0,
    NaN, [false] and [null] are falsy. *)
Definition truthy_string (s : string) : bool := negb (s =? "")%string.

Definition truthy_number (x : float) : bool := negb ((x =? 0)%float || is_nan x).

Definition truthy_json (v : Json) : bool :=
  match v with
  | JNull => false
  | JBool b => b
  | JNumber x => truthy_number x
  | JString s => truthy_string s
  | JArray _ | JObject _ => true
  end.

(** [x || null] and [x || d] on an optional or nullable [x]: [None] stands
    for both [undefined] and [null], which [||] does not tell apart. *)
Definition or_null {A : Type} (truthy : A -> bool) (x : option A) : option A :=
  match x with
  | Some v => if truthy v then Some v else None
  | None => None
  end.

Definition or_default {A : Type} (truthy : A -> bool) (x : option A) (d : A) : A :=
  match x with
  | Some v => if truthy v then v else d
  | None => d
  end.

(** A [Map<string, V>]: the entries in insertion order. [set] on a key the
    map holds replaces the value where it stands; on a new key it appends. *)
Definition JSMap (V : Type) : Type := list (string * V).

Fixpoint Map_get {V : Type} (m : JSMap V) (k : string) : option V :=
  match m with
  | [] => None
  | (k', v) :: rest => if (k' =? k)%string then Some v else Map_get rest k
  end.

Fixpoint Map_set {V : Type} (m : JSMap V) (k : string) (v : V) : JSMap V :=
  match m with
  | [] => [(k, v)]
  | (k', v') :: rest =>
      if (k' =? k)%string then (k, v) :: rest else (k', v') :: Map_set rest k v
  end.

Definition Map_values {V : Type} (m : JSMap V) : list V := map snd m.

(** A [Date], in milliseconds since the epoch. *)
Definition Date : Type := Z.

(** ** The rows and insert types of the schema *)

Module InsertUser.
Record t := { username : string; password : string }.
End InsertUser.

Module UserRow.
Record t := { id : string; username : string; password : string }.
End UserRow.

Module InsertHypothesis.
Record t := {
  domain : string;
  question : string;
  variables : string;
  constraints : option string;
  generatedContent : string;
  userId : option string
}.
End InsertHypothesis.

Module HypothesisRow.
Record t := {
  id : string;
  userId : string;
  domain : string;
  question : string;
  variables : string;
  constraints : option string;
  generatedContent : string;
  createdAt : Date
}.
End HypothesisRow.

Module InsertMethod.
Record t := {
  hypothesisId : option string;
  hypothesis : string;
  variables : string;
  constraints : option string;
  primaryMethods : Json;
  alternativeMethod : option Json;
  confidence : option float;
  userId : option string
}.
End InsertMethod.

Module MethodRow.
Record t := {
  id : string;
  userId : string;
  hypothesisId : option string;
  hypothesis : string;
  variables : string;
  constraints : option string;
  primaryMethods : Json;
  alternativeMethod : option Json;
  confidence : option float;
  createdAt : Date
}.
End MethodRow.

Module InsertSampleSizeCalculation.
Record t := {
  testType : string;
  effectSize : float;
  power : float;
  alpha : float;
  sampleSize : float;
  totalSampleSize : float;
  adjustedSampleSize : float;
  formula : string;
  assumptions : string;
  userId : option string
}.
End InsertSampleSizeCalculation.

Module SampleSizeCalculationRow.
Record t := {
  id : string;
  userId : string;
  testType : string;
  effectSize : float;
  power : float;
  alpha : float;
  sampleSize : float;
  totalSampleSize : float;
  adjustedSampleSize : float;
  formula : string;
  assumptions : string;
  createdAt : Date
}.
End SampleSizeCalculationRow.

Module InsertCitationVerification.
Record t := {
  claim : string;
  verificationStatus : string;
  confidence : float;
  supportingEvidence : Json;
  aiAnalysis : string;
  userId : option string
}.
End InsertCitationVerification.

Module CitationVerificationRow.
Record t := {
  id : string;
  userId : string;
  claim : string;
  verificationStatus : string;
  confidence : float;
  supportingEvidence : Json;
  aiAnalysis : string;
  createdAt : Date
}.
End CitationVerificationRow.

Module InsertProtocol.
Record t := {
  methodIds : list string;
  title : string;
  format : string;
  content : Json;
  includeCitations : option bool;
  includeEquipment : option bool;
  includeCostEstimates : option bool;
  userId : option string
}.
End InsertProtocol.

Module ProtocolRow.
Record t := {
  id : string;
  userId : string;
  methodIds : list string;
  title : string;
  format : string;
  content : Json;
  includeCitations : option bool;
  includeEquipment : option bool;
  includeCostEstimates : option bool;
  exportedAt : Date
}.
End ProtocolRow.

(** ** [MemStorage] *)

Record MemStorage := {
  users : JSMap UserRow.t;
  hypotheses : JSMap HypothesisRow.t;
  methods : JSMap MethodRow.t;
  sampleSizeCalculations : JSMap SampleSizeCalculationRow.t;
  citationVerifications : JSMap CitationVerificationRow.t;
  protocols : JSMap ProtocolRow.t
}.

(** [new MemStorage()]. *)
Definition newMemStorage : MemStorage :=
  {| users := []; hypotheses := []; methods := []; sampleSizeCalculations := [];
     citationVerifications := []; protocols := [] |}.

Definition getUser (this : MemStorage) (id : string) : option UserRow.t :=
  Map_get (users this) id.

Definition getUserByUsername (this : MemStorage) (username : string) : option UserRow.t :=
  find (fun user => (UserRow.username user =? username)%string) (Map_values (users this)).

(** The creating methods take what [randomUUID()] and [new Date()] return
    as [id] and [now]; they return the row and the storage after the call. *)
Definition createUser (this : MemStorage) (id : string) (insertUser : InsertUser.t)
  : UserRow.t * MemStorage :=
  let user :=
    {| UserRow.id := id;
       UserRow.username := InsertUser.username insertUser;
       UserRow.password := InsertUser.password insertUser |} in
  (user,
   {| users := Map_set (users this) id user;
      hypotheses := hypotheses this;
      methods := methods this;
      sampleSizeCalculations := sampleSizeCalculations this;
      citationVerifications := citationVerifications this;
      protocols := protocols this |}).

Definition createHypothesis (this : MemStorage) (id : string) (now : Date)
    (insertHypothesis : InsertHypothesis.t) : HypothesisRow.t * MemStorage :=
  let hypothesis :=
    {| HypothesisRow.id := id;
       HypothesisRow.userId :=
         or_default truthy_string (InsertHypothesis.userId insertHypothesis) "default-user"%string;
       HypothesisRow.domain := InsertHypothesis.domain insertHypothesis;
       HypothesisRow.question := InsertHypothesis.question insertHypothesis;
       HypothesisRow.variables := InsertHypothesis.variables insertHypothesis;
       HypothesisRow.constraints :=
         or_null truthy_string (InsertHypothesis.constraints insertHypothesis);
       HypothesisRow.generatedContent := InsertHypothesis.generatedContent insertHypothesis;
       HypothesisRow.createdAt := now |} in
  (hypothesis,
   {| users := users this;
      hypotheses := Map_set (hypotheses this) id hypothesis;
      methods := methods this;
      sampleSizeCalculations := sampleSizeCalculations this;
      citationVerifications := citationVerifications this;
      protocols := protocols this |}).

Definition getHypothesesByUser (this : MemStorage) (userId : string) : list HypothesisRow.t :=
  filter (fun h => (HypothesisRow.userId h =? userId)%string) (Map_values (hypotheses this)).

Definition createMethod (this : MemStorage) (id : string) (now : Date)
    (insertMethod : InsertMethod.t) : MethodRow.t * MemStorage :=
  let method :=
    {| MethodRow.id := id;
       MethodRow.userId :=
         or_default truthy_string (InsertMethod.userId insertMethod) "default-user"%string;
       MethodRow.hypothesisId := or_null truthy_string (InsertMethod.hypothesisId insertMethod);
       MethodRow.hypothesis := InsertMethod.hypothesis insertMethod;
       MethodRow.variables := InsertMethod.variables insertMethod;
       MethodRow.constraints := or_null truthy_string (InsertMethod.constraints insertMethod);
       MethodRow.primaryMethods := InsertMethod.primaryMethods insertMethod;
       MethodRow.alternativeMethod :=
         or_null truthy_json (InsertMethod.alternativeMethod insertMethod);
       MethodRow.confidence := or_null truthy_number (InsertMethod.confidence insertMethod);
       MethodRow.createdAt := now |} in
  (method,
   {| users := users this;
      hypotheses := hypotheses this;
      methods := Map_set (methods this) id method;
      sampleSizeCalculations := sampleSizeCalculations this;
      citationVerifications := citationVerifications this;
      protocols := protocols this |}).

Definition getMethodsByUser (this : MemStorage) (userId : string) : list MethodRow.t :=
  filter (fun m => (MethodRow.userId m =? userId)%string) (Map_values (methods this)).

Definition getMethod (this : MemStorage) (id : string) : option MethodRow.t :=
  Map_get (methods this) id.

Definition createSampleSizeCalculation (this : MemStorage) (id : string) (now : Date)
    (insertCalculation : InsertSampleSizeCalculation.t)
  : SampleSizeCalculationRow.t * MemStorage :=
  let calculation :=
    {| SampleSizeCalculationRow.id := id;
       SampleSizeCalculationRow.userId :=
         or_default truthy_string (InsertSampleSizeCalculation.userId insertCalculation)
           "default-user"%string;
       SampleSizeCalculationRow.testType := InsertSampleSizeCalculation.testType insertCalculation;
       SampleSizeCalculationRow.effectSize :=
         InsertSampleSizeCalculation.effectSize insertCalculation;
       SampleSizeCalculationRow.power := InsertSampleSizeCalculation.power insertCalculation;
       SampleSizeCalculationRow.alpha := InsertSampleSizeCalculation.alpha insertCalculation;
       SampleSizeCalculationRow.sampleSize :=
         InsertSampleSizeCalculation.sampleSize insertCalculation;
       SampleSizeCalculationRow.totalSampleSize :=
         InsertSampleSizeCalculation.totalSampleSize insertCalculation;
       SampleSizeCalculationRow.adjustedSampleSize :=
         InsertSampleSizeCalculation.adjustedSampleSize insertCalculation;
       SampleSizeCalculationRow.formula := InsertSampleSizeCalculation.formula insertCalculation;
       SampleSizeCalculationRow.assumptions :=
         InsertSampleSizeCalculation.assumptions insertCalculation;
       SampleSizeCalculationRow.createdAt := now |} in
  (calculation,
   {| users := users this;
      hypotheses := hypotheses this;
      methods := methods this;
      sampleSizeCalculations := Map_set (sampleSizeCalculations this) id calculation;
      citationVerifications := citationVerifications this;
      protocols := protocols this |}).

Definition getSampleSizeCalculationsByUser (this : MemStorage) (userId : string)
  : list SampleSizeCalculationRow.t :=
  filter (fun c => (SampleSizeCalculationRow.userId c =? userId)%string)
    (Map_values (sampleSizeCalculations this)).

Definition createCitationVerification (this : MemStorage) (id : string) (now : Date)
    (insertVerification : InsertCitationVerification.t)
  : CitationVerificationRow.t * MemStorage :=
  let verification :=
    {| CitationVerificationRow.id := id;
       CitationVerificationRow.userId :=
         or_default truthy_string (InsertCitationVerification.userId insertVerification)
           "default-user"%string;
       CitationVerificationRow.claim := InsertCitationVerification.claim insertVerification;
       CitationVerificationRow.verificationStatus :=
         InsertCitationVerification.verificationStatus insertVerification;
       CitationVerificationRow.confidence :=
         InsertCitationVerification.confidence insertVerification;
       CitationVerificationRow.supportingEvidence :=
         InsertCitationVerification.supportingEvidence insertVerification;
       CitationVerificationRow.aiAnalysis :=
         InsertCitationVerification.aiAnalysis insertVerification;
       CitationVerificationRow.createdAt := now |} in
  (verification,
   {| users := users this;
      hypotheses := hypotheses this;
      methods := methods this;
      sampleSizeCalculations := sampleSizeCalculations this;
      citationVerifications := Map_set (citationVerifications this) id verification;
      protocols := protocols this |}).

Definition getCitationVerificationsByUser (this : MemStorage) (userId : string)
  : list CitationVerificationRow.t :=
  filter (fun v => (CitationVerificationRow.userId v =? userId)%string)
    (Map_values (citationVerifications this)).

Definition createProtocol (this : MemStorage) (id : string) (now : Date)
    (insertProtocol : InsertProtocol.t) : ProtocolRow.t * MemStorage :=
  let protocol :=
    {| ProtocolRow.id := id;
       ProtocolRow.userId :=
         or_default truthy_string (InsertProtocol.userId insertProtocol) "default-user"%string;
       ProtocolRow.methodIds := InsertProtocol.methodIds insertProtocol;
       ProtocolRow.title := InsertProtocol.title insertProtocol;
       ProtocolRow.format := InsertProtocol.format insertProtocol;
       ProtocolRow.content := InsertProtocol.content insertProtocol;
       ProtocolRow.includeCitations :=
         or_null (fun b : bool => b) (InsertProtocol.includeCitations insertProtocol);
       ProtocolRow.includeEquipment :=
         or_null (fun b : bool => b) (InsertProtocol.includeEquipment insertProtocol);
       ProtocolRow.includeCostEstimates :=
         or_null (fun b : bool => b) (InsertProtocol.includeCostEstimates insertProtocol);
       ProtocolRow.exportedAt := now |} in
  (protocol,
   {| users := users this;
      hypotheses := hypotheses this;
      methods := methods this;
      sampleSizeCalculations := sampleSizeCalculations this;
      citationVerifications := citationVerifications this;
      protocols := Map_set (protocols this) id protocol |}).

Definition getProtocolsByUser (this : MemStorage) (userId : string) : list ProtocolRow.t :=
  filter (fun p => (ProtocolRow.userId p =? userId)%string) (Map_values (protocols this)).

(** ** The storages a run can reach *)

(** [new MemStorage()] followed by calls of the creating methods. *)
Inductive Reachable : MemStorage -> Prop :=
  | Reachable_new : Reachable newMemStorage
  | Reachable_createUser this id insertUser :
      Reachable this -> Reachable (snd (createUser this id insertUser))
  | Reachable_createHypothesis this id now insertHypothesis :
      Reachable this -> Reachable (snd (createHypothesis this id now insertHypothesis))
  | Reachable_createMethod this id now insertMethod :
      Reachable this -> Reachable (snd (createMethod this id now insertMethod))
  | Reachable_createSampleSizeCalculation this id now insertCalculation :
      Reachable this ->
      Reachable (snd (createSampleSizeCalculation this id now insertCalculation))
  | Reachable_createCitationVerification this id now insertVerification :
      Reachable this ->
      Reachable (snd (createCitationVerification this id now insertVerification))
  | Reachable_createProtocol this id now insertProtocol :
      Reachable this -> Reachable (snd (createProtocol this id now insertProtocol)).

(** A nullable column holds no falsy value: it is a fixed point of [|| null]. *)
Definition no_falsy {A : Type} (truthy : A -> bool) (x : option A) : Prop :=
  or_null truthy x = x.

(** What every entry of a reachable storage satisfies: it is keyed by its
    own id, its user id is not empty, and its nullable columns hold no
    falsy value. *)
Definition user_entry (kv : string * UserRow.t) : Prop :=
  fst kv = UserRow.id (snd kv).

Definition hypothesis_entry (kv : string * HypothesisRow.t) : Prop :=
  fst kv = HypothesisRow.id (snd kv) /\
  truthy_string (HypothesisRow.userId (snd kv)) = true /\
  no_falsy truthy_string (HypothesisRow.constraints (snd kv)).

Definition method_entry (kv : string * MethodRow.t) : Prop :=
  fst kv = MethodRow.id (snd kv) /\
  truthy_string (MethodRow.userId (snd kv)) = true /\
  no_falsy truthy_string (MethodRow.hypothesisId (snd kv)) /\
  no_falsy truthy_string (MethodRow.constraints (snd kv)) /\
  no_falsy truthy_json (MethodRow.alternativeMethod (snd kv)) /\
  no_falsy truthy_number (MethodRow.confidence (snd kv)).

Definition calculation_entry (kv : string * SampleSizeCalculationRow.t) : Prop :=
  fst kv = SampleSizeCalculationRow.id (snd kv) /\
  truthy_string (SampleSizeCalculationRow.userId (snd kv)) = true.

Definition verification_entry (kv : string * CitationVerificationRow.t) : Prop :=
  fst kv = CitationVerificationRow.id (snd kv) /\
  truthy_string (CitationVerificationRow.userId (snd kv)) = true.

Definition protocol_entry (kv : string * ProtocolRow.t) : Prop :=
  fst kv = ProtocolRow.id (snd kv) /\
  truthy_string (ProtocolRow.userId (snd kv)) = true /\
  no_falsy (fun b : bool => b) (ProtocolRow.includeCitations (snd kv)) /\
  no_falsy (fun b : bool => b) (ProtocolRow.includeEquipment (snd kv)) /\
  no_falsy (fun b : bool => b) (ProtocolRow.includeCostEstimates (snd kv)).

Definition storage_invariant (this : MemStorage) : Prop :=
  Forall user_entry (users this) /\
  Forall hypothesis_entry (hypotheses this) /\
  Forall method_entry (methods this) /\
  Forall calculation_entry (sampleSizeCalculations this) /\
  Forall verification_entry (citationVerifications this) /\
  Forall protocol_entry (protocols this).

(** A storage built from [new MemStorage()] by the creating methods, with
    a user in it. *)
Definition sample_storage : MemStorage :=
  snd (createMethod
         (snd (createUser newMemStorage "u-1"
                 {| InsertUser.username := "ada"; InsertUser.password := "x" |}))
         "m-1" 0%Z
         {| InsertMethod.hypothesisId := Some ""%string; InsertMethod.hypothesis := "h";
            InsertMethod.variables := "v"; InsertMethod.constraints := None;
            InsertMethod.primaryMethods := JArray [];
            InsertMethod.alternativeMethod := Some JNull;
            InsertMethod.confidence := Some 0%float; InsertMethod.userId := None |}).

(** ** The sample-size routes ([server/routes.ts]) *)

Definition DEFAULT_USER_ID : string := "default-user".

(** The body of [POST /api/sample-size/calculate] as the client's
    [SampleSizeCalculationRequest] types it: a string and three numbers,
    each of which may be absent. *)
Module SampleSizeBody.
Record t := {
  testType : option string;
  effectSize : option float;
  power : option float;
  alpha : option float
}.
End SampleSizeBody.

(** What the handler answers: [res.status(400).json({ message })],
    [res.json({ id, ...result })], or the [catch]'s
    [res.status(500).json({ message })]. *)
Inductive SampleSizeResponse :=
  | Status400 (message : string)
  | Status200 (id : string) (result : SampleSizeResult)
  | Status500 (message : string).

(** The handler of [POST /api/sample-size/calculate], on the storage
    singleton.  The guard is
    [!testType || effectSize === undefined || power === undefined || alpha === undefined];
    nothing in the [try] block throws on such a body, so the [catch] is not
    entered. *)
Definition postSampleSizeCalculate {host : MathHost} (storage : MemStorage)
    (id : string) (now : Date) (body : SampleSizeBody.t)
  : SampleSizeResponse * MemStorage :=
  match SampleSizeBody.testType body, SampleSizeBody.effectSize body,
        SampleSizeBody.power body, SampleSizeBody.alpha body with
  | Some testType, Some effectSize, Some power, Some alpha =>
      if truthy_string testType then
        let result :=
          calculateSampleSize
            {| testType := testType; effectSize := effectSize; power := power;
               alpha := alpha; groups := None |} in
        let calculationData :=
          {| InsertSampleSizeCalculation.userId := Some DEFAULT_USER_ID;
             InsertSampleSizeCalculation.testType := testType;
             InsertSampleSizeCalculation.effectSize := effectSize;
             InsertSampleSizeCalculation.power := power;
             InsertSampleSizeCalculation.alpha := alpha;
             InsertSampleSizeCalculation.sampleSize := sampleSize result;
             InsertSampleSizeCalculation.totalSampleSize := totalSampleSize result;
             InsertSampleSizeCalculation.adjustedSampleSize := adjustedSampleSize result;
             InsertSampleSizeCalculation.formula := formula result;
             InsertSampleSizeCalculation.assumptions :=
               String.concat "; " (assumptions result) |} in
        let '(calculation, storage') :=
          createSampleSizeCalculation storage id now calculationData in
        (Status200 (SampleSizeCalculationRow.id calculation) result, storage')
      else
        (Status400 "All parameters are required for sample size calculation", storage)
  | _, _, _, _ =>
      (Status400 "All parameters are required for sample size calculation", storage)
  end.

(** The handler of [GET /api/sample-size]: what it passes to [res.json]. *)
Definition getSampleSize (storage : MemStorage) : list SampleSizeCalculationRow.t :=
  getSampleSizeCalculationsByUser storage DEFAULT_USER_ID.

(** ** The protocol exporter's method selection (client) *)

Module ProtocolFormData.
Record t := {
  selectedMethods : list string;
  selectedFormat : string;
  title : string;
  includeCitations : bool;
  includeEquipment : bool;
  includeCostEstimates : bool
}.
End ProtocolFormData.

(** [handleMethodSelection]: the form data [updateData] leaves, that is
    [{ ...formData, selectedMethods }]; the copy [updateData] writes to
    [localStorage] is not part of the model. *)
Definition handleMethodSelection (formData : ProtocolFormData.t) (methodId : string)
    (checked : bool) : ProtocolFormData.t :=
  {| ProtocolFormData.selectedMethods :=
       if checked then ProtocolFormData.selectedMethods formData ++ [methodId]
       else filter (fun id => negb (id =? methodId)%string)
              (ProtocolFormData.selectedMethods formData);
     ProtocolFormData.selectedFormat := ProtocolFormData.selectedFormat formData;
     ProtocolFormData.title := ProtocolFormData.title formData;
     ProtocolFormData.includeCitations := ProtocolFormData.includeCitations formData;
     ProtocolFormData.includeEquipment := ProtocolFormData.includeEquipment formData;
     ProtocolFormData.includeCostEstimates := ProtocolFormData.includeCostEstimates formData |}.

(** The [checked] property of a method's checkbox:
    [formData.selectedMethods.includes(method.id)]. *)
Definition methodChecked (formData : ProtocolFormData.t) (methodId : string) : bool :=
  existsb (fun id => (id =? methodId)%string) (ProtocolFormData.selectedMethods formData).

(** ** The dashboard and the sidebar (client) *)

Inductive Page :=
  | HypothesisGeneratorPage
  | MethodsRecommenderPage
  | SampleSizeCalculatorPage
  | CitationVerifierPage
  | ProtocolExporterPage.

Definition getPageTitle (location : string) : string :=
  if (location =? "/hypothesis")%string then "Hypothesis Generator"
  else if (location =? "/methods")%string then "Research Methods Recommender"
  else if (location =? "/sample-size")%string then "Sample Size Calculator"
  else if (location =? "/citations")%string then "Citation Verifier"
  else if (location =? "/protocols")%string then "Protocol Exporter"
  else "Research Methods Recommender".

Definition getPageDescription (location : string) : string :=
  if (location =? "/hypothesis")%string then
    "Generate evidence-linked research hypotheses using AI and scientific literature"
  else if (location =? "/methods")%string then
    "Generate evidence-based research methods for your study"
  else if (location =? "/sample-size")%string then
    "Calculate required sample sizes for statistical power analysis"
  else if (location =? "/citations")%string then
    "Verify research claims against published literature"
  else if (location =? "/protocols")%string then
    "Export research protocols to lab-friendly formats"
  else "Generate evidence-based research methods for your study".

Definition renderContent (location : string) : Page :=
  if (location =? "/hypothesis")%string then HypothesisGeneratorPage
  else if (location =? "/methods")%string then MethodsRecommenderPage
  else if (location =? "/sample-size")%string then SampleSizeCalculatorPage
  else if (location =? "/citations")%string then CitationVerifierPage
  else if (location =? "/protocols")%string then ProtocolExporterPage
  else MethodsRecommenderPage.

(** The sidebar's [navigation]: name, href and icon of each item. *)
Definition navigation : list (string * string * string) :=
  [("Hypothesis Generator", "/hypothesis", "fas fa-lightbulb");
   ("Methods Recommender", "/methods", "fas fa-flask");
   ("Sample Size Calculator", "/sample-size", "fas fa-calculator");
   ("Citation Verifier", "/citations", "fas fa-check-circle");
   ("Protocol Exporter", "/protocols", "fas fa-file-export")]%string.

(** [isActive = location === item.href]. *)
Definition isActive (location : string) (item : string * string * string) : bool :=
  (location =? snd (fst item))%string.

(** * Properties *)

Local Open Scope float_scope.

(** ** Strings *)

Lemma lower_ascii_idem (c : ascii) : lower_ascii (lower_ascii c) = lower_ascii c.
Proof. destruct c as [[] [] [] [] [] [] [] []]; reflexivity. Qed.

Lemma toLowerCase_idem (s : string) : toLowerCase (toLowerCase s) = toLowerCase s.
Proof.
  induction s as [|c s IH]; simpl.
  - reflexivity.
  - now rewrite lower_ascii_idem, IH.
Qed.

(** ** The result, field by field *)

Lemma sampleSize_eq {host : MathHost} t e p a g :
  sampleSize (calculateSampleSize
    {| testType := t; effectSize := e; power := p; alpha := a; groups := g |})
  = fst (fst (branch (dispatch (toLowerCase t)) e p a (groups_or_default g))).
Proof.
  unfold calculateSampleSize; cbn [testType effectSize power alpha groups].
  fold (groups_or_default g).
  now destruct (branch _ e p a _) as [[n f] l].
Qed.

Lemma formula_eq {host : MathHost} t e p a g :
  formula (calculateSampleSize
    {| testType := t; effectSize := e; power := p; alpha := a; groups := g |})
  = snd (fst (branch (dispatch (toLowerCase t)) e p a (groups_or_default g))).
Proof.
  unfold calculateSampleSize; cbn [testType effectSize power alpha groups].
  fold (groups_or_default g).
  now destruct (branch _ e p a _) as [[n f] l].
Qed.

Lemma totalSampleSize_eq {host : MathHost} (params : SampleSizeParams) :
  totalSampleSize (calculateSampleSize params)
  = if includes (toLowerCase (testType params)) "paired"
    then sampleSize (calculateSampleSize params)
    else sampleSize (calculateSampleSize params) * groups_or_default (groups params).
Proof.
  unfold calculateSampleSize, groups_or_default.
  now destruct (branch _ _ _ _ _) as [[n f] l].
Qed.

Lemma adjustedSampleSize_eq {host : MathHost} (params : SampleSizeParams) :
  adjustedSampleSize (calculateSampleSize params)
  = Math_ceil (totalSampleSize (calculateSampleSize params) * 1.2).
Proof.
  unfold calculateSampleSize.
  now destruct (branch _ _ _ _ _) as [[n f] l].
Qed.

Lemma numeric_fields_inv (r : SampleSizeResult) (n t a : float) :
  numeric_fields r = (n, t, a) ->
  sampleSize r = n /\ totalSampleSize r = t /\ adjustedSampleSize r = a.
Proof. unfold numeric_fields; intros E; now inversion E. Qed.

Lemma example_two_sample {host : MathHost} :
  numeric_fields (calculateSampleSize (example_params "two-sample t-test")) = (63, 126, 152).
Proof. vm_compute. reflexivity. Qed.

Lemma example_paired {host : MathHost} :
  numeric_fields (calculateSampleSize (example_params "paired t-test")) = (32, 32, 39).
Proof. vm_compute. reflexivity. Qed.

(** ** Finite and non-finite doubles *)

Lemma Prim2SF_infinity : Prim2SF infinity = S754_infinity false.
Proof. reflexivity. Qed.

Lemma SFeqb_finite_refl (s : bool) (m : positive) (e : Z) :
  SFeqb (S754_finite s m e) (S754_finite s m e) = true.
Proof.
  unfold SFeqb, SFcompare.
  destruct s; rewrite Z.compare_refl, Pos.compare_cont_refl; reflexivity.
Qed.

(** [is_finite] read on the specification side. *)
Lemma is_finite_SF (x : float) :
  is_finite x = match Prim2SF x with
                | S754_nan | S754_infinity _ => false
                | _ => true
                end.
Proof.
  unfold is_finite, is_nan, is_infinity.
  rewrite !eqb_spec, abs_spec, Prim2SF_infinity.
  destruct (Prim2SF x) as [s | s | | s m e]; cbn [SFabs].
  - destruct s; reflexivity.
  - destruct s; reflexivity.
  - reflexivity.
  - rewrite SFeqb_finite_refl. reflexivity.
Qed.

(** What [x === 0] leaves of [x]: one of the two zeros. *)
Lemma eqb_zero_inv (x : float) : (x =? 0) = true -> x = 0 \/ x = (-0).
Proof.
  rewrite eqb_spec. change (Prim2SF 0) with (S754_zero false).
  intros H. rewrite <- (SF2Prim_Prim2SF x).
  destruct (Prim2SF x) as [s | s | | s m e]; try discriminate H.
  - destruct s; [right | left]; reflexivity.
  - destruct s; discriminate H.
  - destruct s; discriminate H.
Qed.

Lemma div_zero_not_finite (y z : float) :
  (z =? 0) = true -> is_finite (y / z) = false.
Proof.
  intros [-> | ->]%eqb_zero_inv; rewrite is_finite_SF, div_spec;
    [ change (Prim2SF 0) with (S754_zero false)
    | change (Prim2SF (-0)) with (S754_zero true) ];
    destruct (Prim2SF y) as [s | s | | s m e]; reflexivity.
Qed.

Lemma mul_not_finite (x g : float) :
  is_finite x = false -> is_finite (x * g) = false.
Proof.
  rewrite !is_finite_SF, mul_spec.
  destruct (Prim2SF x) as [s | s | | s m e]; try discriminate; intros _;
    destruct (Prim2SF g) as [s' | s' | | s' m' e']; reflexivity.
Qed.

Lemma add_not_finite (x c : float) :
  is_finite x = false -> is_finite (x + c) = false.
Proof.
  rewrite !is_finite_SF, add_spec.
  destruct (Prim2SF x) as [s | s | | s m e]; try discriminate; intros _;
    destruct (Prim2SF c) as [s' | s' | | s' m' e']; try reflexivity;
    destruct s, s'; reflexivity.
Qed.

Lemma Math_ceil_not_finite (x : float) :
  is_finite x = false -> Math_ceil x = x.
Proof.
  rewrite is_finite_SF. unfold Math_ceil.
  destruct (Prim2SF x) as [s | s | | s m e]; try discriminate; reflexivity.
Qed.

(** A quotient whose divisor is a group count times zero. *)
Lemma div_mul_zero_not_finite (y g z : float) :
  (z =? 0) = true -> is_finite (y / (g * z)) = false.
Proof.
  intros [-> | ->]%eqb_zero_inv; rewrite is_finite_SF, div_spec, mul_spec;
    [ change (Prim2SF 0) with (S754_zero false)
    | change (Prim2SF (-0)) with (S754_zero true) ];
    destruct (Prim2SF g) as [s' | s' | | s' m' e'];
    destruct (Prim2SF y) as [s | s | | s m e]; reflexivity.
Qed.

(** A finite value over Infinity, plus three. *)
Lemma div_infinity_plus_3 (y : float) :
  is_finite y = true -> (y / infinity) + 3 = 3.
Proof.
  rewrite is_finite_SF. intros F. apply Prim2SF_inj.
  rewrite add_spec, div_spec, Prim2SF_infinity.
  destruct (Prim2SF y) as [s | s | | s m e]; try discriminate F; reflexivity.
Qed.

(** ** Doubles at least 1: products and ceilings *)

Section AtLeastOne.

Local Open Scope Z_scope.

(** [digits2_pos] counts the bits of a mantissa. *)
Lemma digits2_pos_spec (p : positive) :
  2 ^ (Zpos (digits2_pos p) - 1) <= Zpos p < 2 ^ Zpos (digits2_pos p).
Proof.
  induction p as [p IH | p IH | ]; cbn [digits2_pos].
  - rewrite Pos2Z.inj_succ. change (Zpos p~1) with (2 * Zpos p + 1).
    set (d := Zpos (digits2_pos p)) in *.
    assert (0 < d) by (subst d; lia). clearbody d.
    replace (Z.succ d - 1) with (Z.succ (d - 1)) by lia.
    rewrite !Z.pow_succ_r by lia.
    lia.
  - rewrite Pos2Z.inj_succ. change (Zpos p~0) with (2 * Zpos p).
    set (d := Zpos (digits2_pos p)) in *.
    assert (0 < d) by (subst d; lia). clearbody d.
    replace (Z.succ d - 1) with (Z.succ (d - 1)) by lia.
    rewrite !Z.pow_succ_r by lia.
    lia.
  - cbn. lia.
Qed.

Lemma digits2_pos_unique (p : positive) (d : Z) :
  2 ^ (d - 1) <= Zpos p < 2 ^ d -> Zpos (digits2_pos p) = d.
Proof.
  intros [L U]. pose proof (digits2_pos_spec p) as [L' U'].
  assert (0 < d).
  { destruct (Z.ltb_spec 0 d); [assumption|].
    assert (2 ^ d <= 2 ^ 0) by (apply Z.pow_le_mono_r; lia). cbn in *; lia. }
  destruct (Z.lt_trichotomy (Zpos (digits2_pos p)) d) as [Lt | [Eq | Gt]]; [ | exact Eq | ].
  - assert (2 ^ Zpos (digits2_pos p) <= 2 ^ (d - 1)) by (apply Z.pow_le_mono_r; lia). lia.
  - assert (2 ^ d <= 2 ^ (Zpos (digits2_pos p) - 1)) by (apply Z.pow_le_mono_r; lia). lia.
Qed.




Lemma fexp_normal (x : Z) : -1074 <= x - 53 -> fexp prec emax x = x - 53.
Proof. intros H. unfold fexp, SpecFloat.emin, prec, emax. lia. Qed.

(** A positive mantissa of 53 bits with an exponent in range is left as it is. *)
Lemma shr_fexp_canonical (m : positive) (e : Z) :
  2 ^ 52 <= Zpos m < 2 ^ 53 -> -1074 <= e ->
  shr_fexp prec emax (Zpos m) e loc_Exact
  = ({| shr_m := Zpos m; shr_r := false; shr_s := false |}, e).
Proof.
  intros Hm He. unfold shr_fexp. cbn [Zdigits2 shr_record_of_loc].
  rewrite (digits2_pos_unique m 53) by exact Hm.
  rewrite fexp_normal by lia.
  replace (53 + e - 53 - e) with 0 by lia. reflexivity.
Qed.



(** A double with exponent at least -52 is normal: its mantissa has 53 bits. *)
Lemma valid_finite_bounds (x : float) (s : bool) (m : positive) (e : Z) :
  Prim2SF x = S754_finite s m e -> -52 <= e ->
  2 ^ 52 <= Zpos m < 2 ^ 53 /\ e <= 971.
Proof.
  intros E He. pose proof (Prim2SF_valid x) as V. rewrite E in V.
  cbn [SpecFloat.valid_binary] in V. unfold bounded, canonical_mantissa in V.
  apply andb_prop in V as [C B].
  apply Z.eqb_eq in C. apply Z.leb_le in B.
  unfold fexp, SpecFloat.emin, prec, emax in *.
  pose proof (digits2_pos_spec m) as D.
  assert (Zpos (digits2_pos m) = 53) as R by lia.
  rewrite R in D. cbn in D. lia.
Qed.








Lemma iter_xO_value (p j : positive) : Zpos (Pos.iter xO p j) = Zpos p * 2 ^ Zpos j.
Proof.
  induction j as [ | j IH] using Pos.peano_ind.
  - cbn [Pos.iter]. change (Zpos p~0) with (2 * Zpos p). lia.
  - rewrite Pos.iter_succ.
    change (Zpos (Pos.iter xO p j)~0) with (2 * Zpos (Pos.iter xO p j)).
    rewrite IH, Pos2Z.inj_succ, Z.pow_succ_r by lia. lia.
Qed.

(** A canonical positive mantissa and exponent round to themselves. *)
Lemma binary_round_aux_canonical (m : positive) (e : Z) :
  2 ^ 52 <= Zpos m < 2 ^ 53 -> -1074 <= e <= 971 ->
  binary_round_aux prec emax false (Zpos m) e loc_Exact = S754_finite false m e.
Proof.
  intros Hm He. unfold binary_round_aux.
  rewrite shr_fexp_canonical by lia.
  cbn [shr_m loc_of_shr_record round_nearest_even].
  rewrite shr_fexp_canonical by lia. cbn [shr_m].
  destruct (Z.leb_spec e (emax - prec)) as [_ | Gt]; [reflexivity | ].
  unfold emax, prec in Gt. lia.
Qed.

(** The double of a positive integer below 2^53: the integer itself,
    normalized to 53 bits. *)
Lemma float_of_Z_SF (n : positive) :
  Zpos n < 2 ^ 53 ->
  exists m : positive,
    Prim2SF (float_of_Z (Zpos n)) = S754_finite false m (Zpos (digits2_pos n) - 53) /\
    2 ^ 52 <= Zpos m < 2 ^ 53 /\
    Zpos m = Zpos n * 2 ^ (53 - Zpos (digits2_pos n)).
Proof.
  intros Hn. unfold float_of_Z. rewrite of_uint63_spec.
  assert (R : Uint63Axioms.to_Z (Uint63.of_Z (Zpos n)) = Zpos n).
  { rewrite Uint63.of_Z_spec. apply Z.mod_small.
    change Uint63.wB with (2 ^ 63). lia. }
  rewrite R. cbn [binary_normalize]. unfold binary_round.
  pose proof (digits2_pos_spec n) as D.
  set (d := Zpos (digits2_pos n)) in *.
  assert (Hd : 0 < d <= 53).
  { split; [subst d; lia | ].
    destruct (Z.le_gt_cases d 53) as [ | G]; [assumption | ].
    assert (2 ^ 53 <= 2 ^ (d - 1)) by (apply Z.pow_le_mono_r; lia). lia. }
  rewrite fexp_normal by lia.
  unfold shl_align.
  destruct (d + 0 - 53 - 0) as [ | j | j ] eqn:Ej; try lia.
  - assert (d = 53) as E53 by lia. rewrite E53 in *.
    exists n. rewrite binary_round_aux_canonical by (cbn in *; lia).
    split; [reflexivity | ]. cbn in *; lia.
  - assert (Hj : Zpos j = 53 - d) by lia.
    pose proof (iter_xO_value n j) as V.
    assert (P : 2 ^ (d - 1) * 2 ^ Zpos j = 2 ^ 52 /\ 2 ^ d * 2 ^ Zpos j = 2 ^ 53).
    { rewrite <- !Z.pow_add_r by lia. split; f_equal; lia. }
    assert (Pj : 0 < 2 ^ Zpos j) by (apply Z.pow_pos_nonneg; lia).
    assert (B : 2 ^ 52 <= Zpos (Pos.iter xO n j) < 2 ^ 53) by nia.
    exists (Pos.iter xO n j).
    rewrite binary_round_aux_canonical by lia.
    split; [f_equal; lia | ]. split; [exact B | ]. rewrite V, Hj. reflexivity.
Qed.


(** The mantissa and exponent of any finite double. *)
Lemma valid_finite_range (x : float) (s : bool) (m : positive) (e : Z) :
  Prim2SF x = S754_finite s m e -> Zpos m < 2 ^ 53 /\ -1074 <= e <= 971.
Proof.
  intros E. pose proof (Prim2SF_valid x) as V. rewrite E in V.
  cbn [SpecFloat.valid_binary] in V. unfold bounded, canonical_mantissa in V.
  apply andb_prop in V as [C B].
  apply Z.eqb_eq in C. apply Z.leb_le in B.
  unfold fexp, SpecFloat.emin, prec, emax in *.
  pose proof (digits2_pos_spec m) as D.
  assert (2 ^ Zpos (digits2_pos m) <= 2 ^ 53) by (apply Z.pow_le_mono_r; lia).
  lia.
Qed.



End AtLeastOne.


(** ** Signs *)

Lemma Prim2SF_zero : Prim2SF 0 = S754_zero false.
Proof. reflexivity. Qed.

(** A value whose sign bit is clear is not below zero. *)
Lemma sign_clear_not_negative (x : float) :
  sign_clear (Prim2SF x) = true -> (x <? 0) = false.
Proof.
  rewrite ltb_spec, Prim2SF_zero.
  destruct (Prim2SF x) as [s | [] | | [] m e]; cbn; try discriminate; reflexivity.
Qed.

Lemma positive_sign_clear (x : float) :
  (0 <? x) = true -> sign_clear (Prim2SF x) = true.
Proof.
  rewrite ltb_spec, Prim2SF_zero.
  destruct (Prim2SF x) as [s | [] | | [] m e]; cbn; try discriminate; reflexivity.
Qed.

(** Rounding keeps the sign it is given. *)
Lemma binary_round_aux_sign_clear (m e : Z) (l : location) :
  sign_clear (binary_round_aux prec emax false m e l) = true.
Proof.
  unfold binary_round_aux.
  destruct (shr_fexp prec emax m e l) as [mrs' e'].
  destruct (shr_fexp prec emax _ e' loc_Exact) as [mrs'' e''].
  destruct (shr_m mrs''); try reflexivity.
  destruct (Z.leb e'' (emax - prec)); reflexivity.
Qed.

Lemma SFmul_sign_clear (x y : spec_float) :
  sign_clear x = true -> sign_clear y = true -> sign_clear (SF64mul x y) = true.
Proof.
  destruct x as [[] | [] | | [] m e]; cbn [sign_clear negb]; try discriminate;
    destruct y as [[] | [] | | [] m' e']; cbn [sign_clear negb]; try discriminate;
    intros _ _; try reflexivity.
  apply binary_round_aux_sign_clear.
Qed.

(** A square has a clear sign bit, whatever its base. *)
Lemma SFmul_square_sign_clear (x : spec_float) : sign_clear (SF64mul x x) = true.
Proof.
  destruct x as [[] | [] | | [] m e]; try reflexivity;
    apply binary_round_aux_sign_clear.
Qed.

Lemma SFdiv_sign_clear (x y : spec_float) :
  sign_clear x = true -> sign_clear y = true -> sign_clear (SF64div x y) = true.
Proof.
  destruct x as [[] | [] | | [] m e]; cbn [sign_clear negb]; try discriminate;
    destruct y as [[] | [] | | [] m' e']; cbn [sign_clear negb]; try discriminate;
    intros _ _; try reflexivity.
  unfold SF64div, SFdiv.
  destruct (SFdiv_core_binary prec emax (Zpos m) e (Zpos m') e') as [[mz ez] lz].
  apply binary_round_aux_sign_clear.
Qed.

Lemma SFadd_sign_clear (x y : spec_float) :
  sign_clear x = true -> sign_clear y = true -> sign_clear (SF64add x y) = true.
Proof.
  destruct x as [[] | [] | | [] m e]; cbn [sign_clear negb]; try discriminate;
    destruct y as [[] | [] | | [] m' e']; cbn [sign_clear negb]; try discriminate;
    intros _ _; try reflexivity.
  unfold SF64add, SFadd. cbn [cond_Zopp Z.add binary_normalize].
  unfold binary_round.
  destruct (shl_align _ _ _) as [mz ez].
  apply binary_round_aux_sign_clear.
Qed.

Lemma mul_sign_clear (x y : float) :
  sign_clear (Prim2SF x) = true -> sign_clear (Prim2SF y) = true ->
  sign_clear (Prim2SF (x * y)) = true.
Proof. rewrite mul_spec. apply SFmul_sign_clear. Qed.

Lemma square_sign_clear (x : float) : sign_clear (Prim2SF (x * x)) = true.
Proof. rewrite mul_spec. apply SFmul_square_sign_clear. Qed.

Lemma div_sign_clear (x y : float) :
  sign_clear (Prim2SF x) = true -> sign_clear (Prim2SF y) = true ->
  sign_clear (Prim2SF (x / y)) = true.
Proof. rewrite div_spec. apply SFdiv_sign_clear. Qed.

Lemma add_sign_clear (x y : float) :
  sign_clear (Prim2SF x) = true -> sign_clear (Prim2SF y) = true ->
  sign_clear (Prim2SF (x + y)) = true.
Proof. rewrite add_spec. apply SFadd_sign_clear. Qed.

(** ** Magnitudes: what rounding returns *)

Section Magnitude.

Local Open Scope Z_scope.














(** ** Bits of sums, products and quotients of mantissas *)


Lemma digits2_pos_lt (M : positive) (k : Z) :
  0 <= k -> Zpos M < 2 ^ k -> Zpos (digits2_pos M) <= k.
Proof.
  intros Hk H. pose proof (digits2_pos_spec M) as [L U].
  destruct (Z.le_gt_cases (Zpos (digits2_pos M)) k) as [ | G]; [assumption | ].
  assert (2 ^ k <= 2 ^ (Zpos (digits2_pos M) - 1)) by (apply Z.pow_le_mono_r; lia).
  lia.
Qed.



End Magnitude.

Section Operations.

Local Open Scope Z_scope.

(** ** Products *)



(** ** Quotients *)



(** ** Sums and differences *)





End Operations.

Section Doubles.

Local Open Scope Z_scope.

(** ** Magnitudes of doubles *)




Lemma valid_digits (x : float) (s : bool) (m : positive) (e : Z) :
  Prim2SF x = S754_finite s m e -> Zpos (digits2_pos m) <= 53.
Proof.
  intros E. destruct (valid_finite_range x s m e E) as [Hm _].
  apply digits2_pos_lt; lia.
Qed.


Lemma ge_mag_at_least_one (x : float) :
  ge_mag 1 (Prim2SF x) -> at_least_one (Prim2SF x).
Proof.
  destruct (Prim2SF x) as [ | [] | | [] m e] eqn:E; cbn [at_least_one ge_mag]; try tauto.
  unfold mag. intros H.
  pose proof (valid_digits x false m e E).
  destruct (valid_finite_bounds x false m e E ltac:(lia)). lia.
Qed.


Lemma ge_mag_positive (L : Z) (v : float) :
  ge_mag L (Prim2SF v) -> (0 <? v)%float = true.
Proof.
  rewrite ltb_spec, Prim2SF_zero.
  destruct (Prim2SF v) as [ | [] | | [] m e]; cbn [ge_mag]; try tauto; reflexivity.
Qed.


(** ** Operations on doubles *)




(** ** The ceiling of a positive double *)


End Doubles.

Section Differences.

Local Open Scope Z_scope.











(** ** Doubles that are not negative and not NaN *)









End Differences.

(** ** C1: the worked example *)

(** C1, as the code computes it: for alpha = 0.05, power = 0.80, test type
    "two-sample t-test", effect size 0.5 and two groups, the per-group size
    is ceil(2 (1.96 + 0.842)^2 / 0.25) = ceil(62.8...) = 63, the total is
    126 and the adjusted size is ceil(126 * 1.2) = 152. *)
Theorem C1_worked_example {host : MathHost} :
  let r := calculateSampleSize (example_params "two-sample t-test") in
  sampleSize r = Math_ceil ((2 * Math_pow (1.96 + 0.842) 2) / 0.25) /\
  sampleSize r = 63 /\
  totalSampleSize r = 126 /\
  adjustedSampleSize r = Math_ceil (126 * 1.2) /\
  adjustedSampleSize r = 152.
Proof.
  destruct (numeric_fields_inv _ _ _ _ example_two_sample) as (E1 & E2 & E3).
  cbv zeta. rewrite E1, E2, E3.
  repeat split; vm_compute; reflexivity.
Qed.

(** The figures 64, 128 and 154 are not those the code returns. *)
Lemma C1_counterexample :
  (forall host : MathHost,
      numeric_fields (calculateSampleSize (example_params "two-sample t-test"))
      = (63, 126, 152)) /\
  (63 =? 64) = false /\ (126 =? 128) = false /\ (152 =? 154) = false.
Proof.
  split; [intro host; apply example_two_sample | now vm_compute].
Qed.

(** ** C2: the inflation chain *)

(** Every branch of the [switch] returns a ceiling. *)
Lemma branch_is_ceil {host : MathHost} (family : TestFamily) (e pw al k : float) :
  exists v : float, fst (fst (branch family e pw al k)) = Math_ceil v.
Proof. destruct family; eexists; reflexivity. Qed.

(** ** The branches of the [switch] on inputs in range *)









(** With an effect size of zero, a tabulated alpha and power and the
    default two groups, the three sizes are +Infinity on every branch. *)
Lemma zero_effect_is_infinite {host : MathHost} (t : string) (e pw al : float) :
  (e =? 0) = true ->
  ((al =? 0.05) || (al =? 0.01) || (al =? 0.001)) = true ->
  ((pw =? 0.8) || (pw =? 0.9) || (pw =? 0.95)) = true ->
  numeric_fields (calculateSampleSize
    {| testType := t; effectSize := e; power := pw; alpha := al; groups := None |})
  = (infinity, infinity, infinity).
Proof.
  intros Z Ha Hp.
  assert (N : fst (fst (branch (dispatch (toLowerCase t)) e pw al 2)) = infinity).
  { unfold branch, calculateANOVASampleSize, getZScore, getPowerZScore.
    destruct (eqb_zero_inv e Z) as [-> | ->];
      (destruct (al =? 0.05); [ | destruct (al =? 0.01); [ | destruct (al =? 0.001) ] ];
       cbn [orb] in Ha; try discriminate Ha);
      (destruct (pw =? 0.8); [ | destruct (pw =? 0.9); [ | destruct (pw =? 0.95) ] ];
       cbn [orb] in Hp; try discriminate Hp);
      destruct (dispatch (toLowerCase t)); reflexivity. }
  unfold numeric_fields.
  rewrite adjustedSampleSize_eq, totalSampleSize_eq, sampleSize_eq.
  cbn [testType groups groups_or_default]. rewrite N.
  destruct (includes (toLowerCase t) "paired"); reflexivity.
Qed.


(** With an effect size whose square overflows, the t-test branch returns 0. *)
Lemma overflowing_effect_size {host : MathHost} :
  numeric_fields (calculateSampleSize
    {| testType := "two-sample t-test"; effectSize := 1e200; power := 0.8; alpha := 0.05;
       groups := None |}) = (0, 0, 0).
Proof. vm_compute. reflexivity. Qed.

(** Why alpha and power are tied to the table: with alpha = 0.999 and
    power = 0.5 the approximation gives z-scores near 5e-9 and 0, and for
    the effect size 1.3e154, whose square is finite, the t-test quotient
    underflows to 0. *)
Lemma small_z_scores_underflow :
  is_finite (1.3e154 * 1.3e154) = true /\
  (0 <? 0.999) = true /\ (0.999 <? 1) = true /\ (0 <? 0.5) = true /\ (0.5 <? 1) = true /\
  (forall host : MathHost,
      (getZScore 0.999 <? 5e-9) = true /\ getPowerZScore 0.5 = 0) /\
  (forall host : MathHost,
      numeric_fields (calculateSampleSize
        {| testType := "two-sample t-test"; effectSize := 1.3e154; power := 0.5;
           alpha := 0.999; groups := None |}) = (0, 0, 0)).
Proof.
  repeat split.
Qed.

(** Why the proportion family is bounded by the pooled proportion the
    code computes and not by the effect size: just below 1, at
    0.9999999999999999, the sum 0.5 + effectSize rounds to 1.5, the pooled
    proportion is 1 and the size is 0. *)
Lemma proportion_effect_below_one :
  (0.9999999999999999 <? 1) = true /\
  0.5 + 0.9999999999999999 = 1.5 /\
  (0.5 + (0.5 + 0.9999999999999999)) / 2 = 1 /\
  ((0.5 + (0.5 + 0.9999999999999999)) / 2 <? 1) = false /\
  (forall host : MathHost,
      numeric_fields (calculateSampleSize
        {| testType := "proportion test"; effectSize := 0.9999999999999999; power := 0.8;
           alpha := 0.05; groups := None |}) = (0, 0, 0)).
Proof.
  repeat split.
Qed.

(** Why the correlation family needs the logarithm to be a number: for an
    effect size above 1 the Fisher ratio is negative and [Math.log] is NaN
    on every engine. *)
Lemma correlation_effect_above_one :
  forall host : MathHost,
    is_nan (Math_log ((1 + 2) / (1 - 2))) = true /\
    numeric_fields (calculateSampleSize (correlation_params 2 0.8 0.05 None))
    = (nan, nan, nan).
Proof.
  intro host. split; vm_compute; reflexivity.
Qed.

(** ** C3: the one-way ANOVA branch *)

Lemma anova_sampleSize {host : MathHost} f pw al g :
  sampleSize (calculateSampleSize (anova_params f pw al g))
  = Math_ceil (calculateANOVASampleSize f pw al (groups_or_default g)).
Proof. unfold anova_params. rewrite sampleSize_eq. reflexivity. Qed.

(** C3, as the code computes it: for test type "one-way anova", every
    effect size f, power, alpha and group count k, the per-group size is
    ceil(2 (1.96 + 0.842)^2 / (k f^2)): the two quantiles are the constants
    1.96 and 0.842 whatever alpha and power are, and they are the quantiles
    the resolver yields for alpha = 0.05 and power = 0.80. *)
Theorem C3_anova_fixed_quantiles {host : MathHost} (f pw al : float) (g : option float) :
  sampleSize (calculateSampleSize (anova_params f pw al g))
  = Math_ceil ((2 * Math_pow (1.96 + 0.842) 2) / (groups_or_default g * Math_pow f 2))
  /\ getZScore 0.05 = 1.96 /\ getPowerZScore 0.8 = 0.842.
Proof.
  split; [ | split; reflexivity ].
  rewrite anova_sampleSize. reflexivity.
Qed.

(** With alpha = 0.01, power = 0.90, f = 0.25 and three groups the code
    returns 84, and the formula with the resolver's quantiles gives 159. *)
Lemma C3_counterexample :
  (forall host : MathHost,
      sampleSize (calculateSampleSize (anova_params 0.25 0.9 0.01 (Some 3))) = 84 /\
      Math_ceil ((2 * Math_pow (getZScore 0.01 + getPowerZScore 0.9) 2)
                 / (3 * Math_pow 0.25 2)) = 159) /\
  (84 =? 159) = false.
Proof.
  split; [ intro host; split; vm_compute; reflexivity | now vm_compute ].
Qed.

(** ** C4: degenerate inputs *)

Lemma Math_pow_2 {host : MathHost} (b : float) : Math_pow b 2 = b * b.
Proof. reflexivity. Qed.

Lemma Math_ceil_keeps_not_finite (x : float) :
  is_finite x = false -> is_finite (Math_ceil x) = false.
Proof. intros H. now rewrite Math_ceil_not_finite. Qed.

(** With a zero effect size every branch of the [switch] divides by zero. *)
Lemma branch_zero_effect {host : MathHost} (family : TestFamily) (e pw al k : float) :
  (e =? 0) = true ->
  is_finite (fst (fst (branch family e pw al k))) = false.
Proof.
  intros Z.
  assert (Q : (Math_pow e 2 =? 0) = true).
  { destruct (eqb_zero_inv e Z) as [-> | ->]; reflexivity. }
  destruct family; unfold branch; cbv zeta; cbn [fst];
    apply Math_ceil_keeps_not_finite.
  - now apply div_zero_not_finite.
  - now apply div_zero_not_finite.
  - unfold calculateANOVASampleSize. rewrite Math_pow_2.
    apply div_mul_zero_not_finite.
    destruct (eqb_zero_inv e Z) as [-> | ->]; reflexivity.
  - apply div_zero_not_finite.
    destruct (eqb_zero_inv e Z) as [-> | ->]; reflexivity.
  - apply add_not_finite, div_zero_not_finite.
    destruct (eqb_zero_inv e Z) as [-> | ->]; reflexivity.
  - now apply div_zero_not_finite.
Qed.

Lemma correlation_unit_effect {host : MathHost} (pw al : float) (g : option float) :
  is_finite (Math_pow (getZScore al + getPowerZScore pw) 2) = true ->
  sampleSize (calculateSampleSize (correlation_params 1 pw al g)) = 3 /\
  sampleSize (calculateSampleSize (correlation_params (-1) pw al g)) = 3.
Proof.
  intros F. unfold correlation_params. rewrite !sampleSize_eq.
  change (dispatch (toLowerCase "correlation test")) with Correlation.
  unfold branch; cbv zeta; cbn [fst].
  change (Math_pow (0.5 * Math_log ((1 + 1) / (1 - 1))) 2) with infinity.
  change (Math_pow (0.5 * Math_log ((1 + -1) / (1 - -1))) 2) with infinity.
  rewrite (div_infinity_plus_3 _ F). split; reflexivity.
Qed.

(** C4, as the code computes it: the embedding is a total function (every
    operation it uses is defined on every double and every string, so a
    call always returns a record and nothing is thrown).  A zero effect
    size makes the three numeric fields non-finite for every test type,
    power, alpha and group count.  A correlation test with effect size 1 or
    -1 does not: the Fisher term is infinite, the quotient is zero, and the
    per-group size is 3 whenever the squared sum of the z-scores is finite;
    with alpha = 0.05, power = 0.80 and two groups the fields are 3, 6
    and 8. *)
Theorem C4_degenerate_inputs {host : MathHost} :
  (forall (t : string) (e pw al : float) (g : option float),
      (e =? 0) = true ->
      let r := calculateSampleSize
                 {| testType := t; effectSize := e; power := pw; alpha := al; groups := g |} in
      is_finite (sampleSize r) = false /\
      is_finite (totalSampleSize r) = false /\
      is_finite (adjustedSampleSize r) = false) /\
  (forall (pw al : float) (g : option float),
      is_finite (Math_pow (getZScore al + getPowerZScore pw) 2) = true ->
      sampleSize (calculateSampleSize (correlation_params 1 pw al g)) = 3 /\
      sampleSize (calculateSampleSize (correlation_params (-1) pw al g)) = 3) /\
  numeric_fields (calculateSampleSize (correlation_params 1 0.8 0.05 None)) = (3, 6, 8) /\
  numeric_fields (calculateSampleSize (correlation_params (-1) 0.8 0.05 None)) = (3, 6, 8).
Proof.
  split; [ | split; [ exact correlation_unit_effect | split; vm_compute; reflexivity ] ].
  intros t e pw al g Z. cbv zeta.
  assert (S : is_finite (sampleSize (calculateSampleSize
                {| testType := t; effectSize := e; power := pw; alpha := al; groups := g |}))
              = false).
  { rewrite sampleSize_eq. now apply branch_zero_effect. }
  assert (T : is_finite (totalSampleSize (calculateSampleSize
                {| testType := t; effectSize := e; power := pw; alpha := al; groups := g |}))
              = false).
  { rewrite totalSampleSize_eq.
    destruct (includes _ _); [ exact S | now apply mul_not_finite ]. }
  repeat split; try assumption.
  rewrite adjustedSampleSize_eq.
  now apply Math_ceil_keeps_not_finite, mul_not_finite.
Qed.

Lemma C4_degenerate_inputs_witness :
  let r := calculateSampleSize (host := nan_host)
             {| testType := "correlation test"; effectSize := 0; power := 0.8;
                alpha := 0.05; groups := None |} in
  (is_finite (sampleSize r) = false /\
   is_finite (totalSampleSize r) = false /\
   is_finite (adjustedSampleSize r) = false) /\
  sampleSize (calculateSampleSize (host := nan_host) (correlation_params 1 0.8 0.05 None)) = 3.
Proof.
  destruct (C4_degenerate_inputs (host := nan_host)) as (Hz & Hu & _).
  split.
  - apply (Hz "correlation test"%string 0 0.8 0.05 None). reflexivity.
  - apply (Hu 0.8 0.05 None). reflexivity.
Defined.

(** A correlation test with effect size 1 (alpha 0.05, power 0.80, two
    groups) returns the finite fields 3, 6 and 8. *)
Lemma C4_counterexample :
  (forall host : MathHost,
      numeric_fields (calculateSampleSize (correlation_params 1 0.8 0.05 None)) = (3, 6, 8)) /\
  is_finite 3 = true /\ is_finite 6 = true /\ is_finite 8 = true.
Proof.
  split; [ intro host; vm_compute; reflexivity | now vm_compute ].
Qed.

(** ** C5: the group multiplication *)

(** C5, as the code computes it: the total is the per-group size itself
    exactly when the lower-cased test type contains "paired" (so for
    "paired t-test" in any casing, and also for an unrecognized name such
    as "unpaired t-test"); for a test type outside the paired family whose
    lower-cased name does not contain "paired", the total is the per-group
    size times the group count. *)
Theorem C5_total_sample_size {host : MathHost} (t : string) (e pw al : float) (g : option float) :
  let r := calculateSampleSize
             {| testType := t; effectSize := e; power := pw; alpha := al; groups := g |} in
  (includes (toLowerCase t) "paired" = true -> totalSampleSize r = sampleSize r) /\
  (toLowerCase t = "paired t-test"%string -> totalSampleSize r = sampleSize r) /\
  (dispatch (toLowerCase t) <> Paired ->
   includes (toLowerCase t) "paired" = false ->
   totalSampleSize r = sampleSize r * groups_or_default g).
Proof.
  cbv zeta. rewrite totalSampleSize_eq. cbn [testType groups].
  repeat split.
  - now intros ->.
  - now intros ->.
  - now intros _ ->.
Qed.

Lemma C5_total_sample_size_witness :
  let r := calculateSampleSize (host := nan_host) (example_params "Paired T-Test") in
  let r' := calculateSampleSize (host := nan_host) (example_params "chi-square test") in
  totalSampleSize r = sampleSize r /\ totalSampleSize r' = sampleSize r' * 2.
Proof.
  split.
  - apply (proj1 (C5_total_sample_size (host := nan_host) "Paired T-Test" 0.5 0.8 0.05 (Some 2))).
    reflexivity.
  - apply (proj2 (proj2 (C5_total_sample_size (host := nan_host) "chi-square test" 0.5 0.8 0.05 (Some 2)))).
    + discriminate.
    + reflexivity.
Defined.

(** "unpaired t-test" is no name of the paired family (it takes the default
    branch), and its total is not multiplied by the two groups. *)
Lemma C5_counterexample :
  dispatch (toLowerCase "unpaired t-test") = DefaultFamily /\
  (forall host : MathHost,
      numeric_fields (calculateSampleSize (example_params "unpaired t-test"))
      = (63, 63, 76)) /\
  (63 =? 63 * 2) = false.
Proof.
  split; [ reflexivity | split; [ intro host; vm_compute; reflexivity | now vm_compute ] ].
Qed.

(** The alias "dependent t-test" takes the paired branch of the [switch],
    and its total is multiplied by the group count all the same. *)
Lemma dependent_alias_is_multiplied {host : MathHost} :
  dispatch (toLowerCase "dependent t-test") = Paired /\
  numeric_fields (calculateSampleSize (example_params "dependent t-test")) = (32, 64, 77).
Proof. split; vm_compute; reflexivity. Qed.

(** ** C6: the z-score resolver *)

(** C6: the resolver returns 1.96, 2.576 and 3.291 for alpha = 0.05, 0.01
    and 0.001, and 0.842, 1.282 and 1.645 for power = 0.80, 0.90 and 0.95,
    whatever the host's approximations are, and not the value the
    approximation has there (0.5925... and 0.6939... for power 0.80 and
    0.90); for any other probability it returns the absolute value of
    [inverseNormalCDF] at p / 2 (alpha) or at 1 - power (power). *)
Theorem C6_z_score_resolver {host : MathHost} :
  (getZScore 0.05 = 1.96 /\ getZScore 0.01 = 2.576 /\ getZScore 0.001 = 3.291) /\
  (getPowerZScore 0.8 = 0.842 /\ getPowerZScore 0.9 = 1.282 /\ getPowerZScore 0.95 = 1.645) /\
  (Math_abs (inverseNormalCDF (1 - 0.8)) = 0.59253766817281539 /\
   Math_abs (inverseNormalCDF (1 - 0.9)) = 0.69392070748957058) /\
  (forall p : float,
      (p =? 0.05) = false -> (p =? 0.01) = false -> (p =? 0.001) = false ->
      getZScore p = Math_abs (inverseNormalCDF (p / 2))) /\
  (forall pw : float,
      (pw =? 0.8) = false -> (pw =? 0.9) = false -> (pw =? 0.95) = false ->
      getPowerZScore pw = Math_abs (inverseNormalCDF (1 - pw))).
Proof.
  repeat split; try reflexivity.
  - intros p H1 H2 H3. unfold getZScore. now rewrite H1, H2, H3.
  - intros pw H1 H2 H3. unfold getPowerZScore. now rewrite H1, H2, H3.
Qed.

Lemma C6_z_score_resolver_witness :
  getZScore (host := nan_host) 0.5 = Math_abs (inverseNormalCDF (host := nan_host) (0.5 / 2)) /\
  getPowerZScore (host := nan_host) 0.85
  = Math_abs (inverseNormalCDF (host := nan_host) (1 - 0.85)).
Proof.
  destruct (C6_z_score_resolver (host := nan_host)) as (_ & _ & _ & Ha & Hp).
  split; [ apply Ha | apply Hp ]; reflexivity.
Defined.

(** ** C7: the default branch *)

(** C7, as the code computes it: an unrecognized test type always has the
    per-group size and the formula string of "two-sample t-test"; when its
    lower-cased name does not contain "paired", the total and the adjusted
    size are those of "two-sample t-test" too. *)
Theorem C7_default_branch {host : MathHost} (t : string) (e pw al : float) (g : option float) :
  dispatch (toLowerCase t) = DefaultFamily ->
  let r := calculateSampleSize
             {| testType := t; effectSize := e; power := pw; alpha := al; groups := g |} in
  let r2 := calculateSampleSize
             {| testType := "two-sample t-test"; effectSize := e; power := pw; alpha := al;
                groups := g |} in
  sampleSize r = sampleSize r2 /\
  formula r = formula r2 /\
  (includes (toLowerCase t) "paired" = false ->
   totalSampleSize r = totalSampleSize r2 /\
   adjustedSampleSize r = adjustedSampleSize r2).
Proof.
  intros D. cbv zeta.
  assert (S : sampleSize (calculateSampleSize
             {| testType := t; effectSize := e; power := pw; alpha := al; groups := g |})
            = sampleSize (calculateSampleSize
             {| testType := "two-sample t-test"; effectSize := e; power := pw; alpha := al;
                groups := g |})).
  { rewrite !sampleSize_eq, D. reflexivity. }
  split; [ exact S | split ].
  - rewrite !formula_eq, D. reflexivity.
  - intros P.
    assert (T : totalSampleSize (calculateSampleSize
             {| testType := t; effectSize := e; power := pw; alpha := al; groups := g |})
            = totalSampleSize (calculateSampleSize
             {| testType := "two-sample t-test"; effectSize := e; power := pw; alpha := al;
                groups := g |})).
    { rewrite !totalSampleSize_eq. cbn [testType groups]. rewrite P, S. reflexivity. }
    split; [ exact T | ].
    rewrite !adjustedSampleSize_eq, T. reflexivity.
Qed.

Lemma C7_default_branch_witness :
  let r := calculateSampleSize (host := nan_host) (example_params "regression") in
  let r2 := calculateSampleSize (host := nan_host) (example_params "two-sample t-test") in
  sampleSize r = sampleSize r2 /\
  formula r = formula r2 /\
  (includes (toLowerCase "regression") "paired" = false ->
   totalSampleSize r = totalSampleSize r2 /\
   adjustedSampleSize r = adjustedSampleSize r2).
Proof.
  apply (C7_default_branch (host := nan_host) "regression" 0.5 0.8 0.05 (Some 2)).
  reflexivity.
Defined.

(** "unpaired t-test" is unrecognized, and its total and adjusted size are
    63 and 76 where "two-sample t-test" has 126 and 152. *)
Lemma C7_counterexample :
  dispatch (toLowerCase "unpaired t-test") = DefaultFamily /\
  (forall host : MathHost,
      numeric_fields (calculateSampleSize (example_params "unpaired t-test"))
      = (63, 63, 76) /\
      numeric_fields (calculateSampleSize (example_params "two-sample t-test"))
      = (63, 126, 152)) /\
  (63 =? 126) = false /\ (76 =? 152) = false.
Proof.
  split; [ reflexivity | split ].
  - intro host; split; vm_compute; reflexivity.
  - now vm_compute.
Qed.

(** ** C8: case-insensitivity *)

(** C8: the result for a test type is, in every field, the result for the
    lower-cased test type; "Two-Sample T-Test" and "two-sample t-test" give
    identical results. *)
Theorem C8_case_insensitive {host : MathHost} (t : string) (e pw al : float) (g : option float) :
  calculateSampleSize
    {| testType := t; effectSize := e; power := pw; alpha := al; groups := g |}
  = calculateSampleSize
    {| testType := toLowerCase t; effectSize := e; power := pw; alpha := al; groups := g |}
  /\
  calculateSampleSize
    {| testType := "Two-Sample T-Test"; effectSize := e; power := pw; alpha := al; groups := g |}
  = calculateSampleSize
    {| testType := "two-sample t-test"; effectSize := e; power := pw; alpha := al; groups := g |}.
Proof.
  split.
  - unfold calculateSampleSize; cbn [testType effectSize power alpha groups].
    now rewrite toLowerCase_idem.
  - reflexivity.
Qed.

(** ** C9: the dropout adjustment *)

(** C9: for every input the adjusted size is ceil(totalSampleSize * 1.2);
    the factor 1.2 is the same constant for every test family and no
    parameter enters it. *)
Theorem C9_adjusted_is_ceil_of_total_times_1_2 {host : MathHost} (params : SampleSizeParams) :
  adjustedSampleSize (calculateSampleSize params)
  = Math_ceil (totalSampleSize (calculateSampleSize params) * 1.2).
Proof. apply adjustedSampleSize_eq. Qed.

(** ** C10: the ANOVA branch ignores power and alpha *)

(** C10: for test type "one-way anova" the per-group size does not depend
    on power and alpha: two calls with the same effect size and groups
    return the same [sampleSize], the helper working from the fixed
    quantiles 1.96 and 0.842. *)
Theorem C10_anova_ignores_power_alpha {host : MathHost}
    (f : float) (g : option float) (pw1 al1 pw2 al2 : float) :
  sampleSize (calculateSampleSize (anova_params f pw1 al1 g))
  = sampleSize (calculateSampleSize (anova_params f pw2 al2 g))
  /\ calculateANOVASampleSize f pw1 al1 (groups_or_default g)
     = (2 * Math_pow (1.96 + 0.842) 2) / (groups_or_default g * Math_pow f 2).
Proof.
  split; [ now rewrite !anova_sampleSize | reflexivity ].
Qed.

(** * More of the engine *)

(** ** The ceiling keeps a clear sign *)

Lemma Math_ceil_sign_clear (y : float) :
  sign_clear (Prim2SF y) = true -> sign_clear (Prim2SF (Math_ceil y)) = true.
Proof.
  intros H. unfold Math_ceil.
  destruct (Prim2SF y) as [s | s | | s m e] eqn:E; try (now rewrite E).
  destruct s; [discriminate H | ].
  destruct (0 <=? e)%Z eqn:Epos; [now rewrite E | ].
  apply Z.leb_gt in Epos. cbv zeta.
  destruct (Z.shiftl _ _ =? Zpos m)%Z; [now rewrite E | ].
  destruct (valid_finite_range y false m e E) as [Hm _].
  rewrite Z.shiftr_div_pow2 by lia.
  assert (Pk : (2 ^ 1 <= 2 ^ (- e))%Z) by (apply Z.pow_le_mono_r; lia).
  assert (Hq : (0 <= Zpos m / 2 ^ (- e) < 2 ^ 52)%Z).
  { split; [apply Z.div_pos; lia | apply Z.div_lt_upper_bound; lia]. }
  destruct (Zpos m / 2 ^ (- e) + 1)%Z as [ | p | p ] eqn:Ep; try lia.
  destruct (float_of_Z_SF p ltac:(lia)) as (m' & -> & _). reflexivity.
Qed.

(** ** The z-scores are magnitudes *)

Lemma abs_not_negative (x : float) : (Math_abs x <? 0) = false.
Proof.
  unfold Math_abs. rewrite ltb_spec, abs_spec, Prim2SF_zero.
  destruct (Prim2SF x) as [s | s | | s m e]; reflexivity.
Qed.

(** The resolver never returns a negative quantile: a table value, or an
    absolute value (NaN included), whatever the probability and the host. *)
Theorem z_scores_not_negative {host : MathHost} (p : float) :
  (getZScore p <? 0) = false /\ (getPowerZScore p <? 0) = false.
Proof.
  unfold getZScore, getPowerZScore. split.
  - destruct (p =? 0.05); [reflexivity | ].
    destruct (p =? 0.01); [reflexivity | ].
    destruct (p =? 0.001); [reflexivity | apply abs_not_negative].
  - destruct (p =? 0.8); [reflexivity | ].
    destruct (p =? 0.9); [reflexivity | ].
    destruct (p =? 0.95); [reflexivity | apply abs_not_negative].
Qed.

(** ** No negative sample size outside the proportion family *)

Lemma branch_sign_clear {host : MathHost} (family : TestFamily) (e pw al k : float) :
  family <> Proportion ->
  sign_clear (Prim2SF k) = true ->
  sign_clear (Prim2SF (fst (fst (branch family e pw al k)))) = true.
Proof.
  intros NP Hk.
  assert (H2 : sign_clear (Prim2SF 2) = true) by reflexivity.
  assert (H3 : sign_clear (Prim2SF 3) = true) by reflexivity.
  destruct family; try congruence; unfold branch; cbv zeta; cbn [fst];
    apply Math_ceil_sign_clear.
  - rewrite !Math_pow_2.
    apply div_sign_clear; [apply mul_sign_clear; [exact H2 | ] | ]; apply square_sign_clear.
  - rewrite !Math_pow_2. apply div_sign_clear; apply square_sign_clear.
  - unfold calculateANOVASampleSize. cbv zeta. rewrite !Math_pow_2.
    apply div_sign_clear; apply mul_sign_clear;
      try assumption; apply square_sign_clear.
  - rewrite !Math_pow_2.
    apply add_sign_clear; [ | exact H3].
    apply div_sign_clear; apply square_sign_clear.
  - rewrite !Math_pow_2.
    apply div_sign_clear; [apply mul_sign_clear; [exact H2 | ] | ]; apply square_sign_clear.
Qed.

(** Outside the proportion family, and for a positive group count (the
    default 2 included), no numeric field of the result is negative:
    each is zero, positive, Infinity or NaN, whatever the effect size,
    power, alpha and host. *)
Theorem numeric_fields_not_negative {host : MathHost}
    (t : string) (e pw al : float) (g : option float) :
  dispatch (toLowerCase t) <> Proportion ->
  (0 <? groups_or_default g) = true ->
  let r := calculateSampleSize
             {| testType := t; effectSize := e; power := pw; alpha := al; groups := g |} in
  (sampleSize r <? 0) = false /\
  (totalSampleSize r <? 0) = false /\
  (adjustedSampleSize r <? 0) = false.
Proof.
  intros NP Hk%positive_sign_clear r.
  assert (S : sign_clear (Prim2SF (sampleSize r)) = true).
  { subst r. rewrite sampleSize_eq. now apply branch_sign_clear. }
  assert (T : sign_clear (Prim2SF (totalSampleSize r)) = true).
  { subst r. rewrite totalSampleSize_eq. cbn [testType groups].
    destruct (includes _ _); [exact S | now apply mul_sign_clear]. }
  assert (A : sign_clear (Prim2SF (adjustedSampleSize r)) = true).
  { subst r. rewrite adjustedSampleSize_eq.
    apply Math_ceil_sign_clear, mul_sign_clear; [exact T | reflexivity]. }
  repeat split; now apply sign_clear_not_negative.
Qed.

Lemma numeric_fields_not_negative_witness :
  let r := calculateSampleSize (host := nan_host)
             {| testType := "correlation test"; effectSize := -0.3; power := 0.9;
                alpha := 0.01; groups := None |} in
  (sampleSize r <? 0) = false /\
  (totalSampleSize r <? 0) = false /\
  (adjustedSampleSize r <? 0) = false.
Proof.
  apply (numeric_fields_not_negative (host := nan_host) "correlation test" (-0.3) 0.9 0.01 None).
  - discriminate.
  - reflexivity.
Defined.

(** ** The sign of the effect size *)

Lemma mul_opp_opp (x : float) : (- x) * (- x) = x * x.
Proof.
  apply Prim2SF_inj. rewrite !mul_spec, opp_spec.
  destruct (Prim2SF x) as [[] | [] | | [] m e]; reflexivity.
Qed.

(** On the t-test branches and the ANOVA branch the effect size enters
    through its square only: an effect size and its opposite give the
    same result, in every field. *)
Theorem effect_size_sign_is_ignored {host : MathHost}
    (t : string) (e pw al : float) (g : option float) :
  dispatch (toLowerCase t) <> Proportion ->
  dispatch (toLowerCase t) <> Correlation ->
  calculateSampleSize
    {| testType := t; effectSize := - e; power := pw; alpha := al; groups := g |}
  = calculateSampleSize
    {| testType := t; effectSize := e; power := pw; alpha := al; groups := g |}.
Proof.
  intros NP NC.
  unfold calculateSampleSize; cbn [testType effectSize power alpha groups].
  replace (branch (dispatch (toLowerCase t)) (- e) pw al (groups_or_default g))
    with (branch (dispatch (toLowerCase t)) e pw al (groups_or_default g)); [reflexivity | ].
  destruct (dispatch (toLowerCase t)); try congruence;
    unfold branch, calculateANOVASampleSize; cbv zeta;
    rewrite !Math_pow_2, mul_opp_opp; reflexivity.
Qed.

Lemma effect_size_sign_is_ignored_witness :
  calculateSampleSize (host := nan_host)
    {| testType := "Paired t-test"; effectSize := - 0.4; power := 0.9; alpha := 0.01;
       groups := None |}
  = calculateSampleSize (host := nan_host)
    {| testType := "Paired t-test"; effectSize := 0.4; power := 0.9; alpha := 0.01;
       groups := None |}.
Proof.
  apply (effect_size_sign_is_ignored (host := nan_host) "Paired t-test" 0.4 0.9 0.01 None);
    discriminate.
Defined.

(** ** Aliases of the test families *)

Lemma assumptions_eq {host : MathHost} t e p a g :
  assumptions (calculateSampleSize
    {| testType := t; effectSize := e; power := p; alpha := a; groups := g |})
  = snd (branch (dispatch (toLowerCase t)) e p a (groups_or_default g)).
Proof.
  unfold calculateSampleSize; cbn [testType effectSize power alpha groups].
  fold (groups_or_default g).
  now destruct (branch _ e p a _) as [[n f] l].
Qed.

(** "independent t-test" is "two-sample t-test" and "chi-square test" is
    "proportion test", in any casing: the results agree in every field. *)
Theorem family_aliases {host : MathHost} (t : string) (e pw al : float) (g : option float) :
  (toLowerCase t = "independent t-test"%string ->
   calculateSampleSize
     {| testType := t; effectSize := e; power := pw; alpha := al; groups := g |}
   = calculateSampleSize
     {| testType := "two-sample t-test"; effectSize := e; power := pw; alpha := al;
        groups := g |}) /\
  (toLowerCase t = "chi-square test"%string ->
   calculateSampleSize
     {| testType := t; effectSize := e; power := pw; alpha := al; groups := g |}
   = calculateSampleSize
     {| testType := "proportion test"; effectSize := e; power := pw; alpha := al;
        groups := g |}).
Proof.
  split; intros L; unfold calculateSampleSize;
    cbn [testType effectSize power alpha groups]; rewrite L; reflexivity.
Qed.

Lemma family_aliases_witness :
  calculateSampleSize (host := nan_host)
    {| testType := "Independent T-Test"; effectSize := 0.5; power := 0.8; alpha := 0.05;
       groups := None |}
  = calculateSampleSize (host := nan_host)
    {| testType := "two-sample t-test"; effectSize := 0.5; power := 0.8; alpha := 0.05;
       groups := None |} /\
  calculateSampleSize (host := nan_host)
    {| testType := "Chi-Square Test"; effectSize := 0.5; power := 0.8; alpha := 0.05;
       groups := None |}
  = calculateSampleSize (host := nan_host)
    {| testType := "proportion test"; effectSize := 0.5; power := 0.8; alpha := 0.05;
       groups := None |}.
Proof.
  split.
  - apply (proj1 (family_aliases (host := nan_host) "Independent T-Test" 0.5 0.8 0.05 None)).
    reflexivity.
  - apply (proj2 (family_aliases (host := nan_host) "Chi-Square Test" 0.5 0.8 0.05 None)).
    reflexivity.
Defined.

(** "dependent t-test" shares the per-group size, the formula and the
    assumptions of "paired t-test"; but where "paired t-test" reports that
    size as the total, "dependent t-test" reports it times the group
    count. *)
Theorem dependent_alias_total {host : MathHost} (e pw al : float) (g : option float) :
  let paired := calculateSampleSize
    {| testType := "paired t-test"; effectSize := e; power := pw; alpha := al; groups := g |} in
  let dependent := calculateSampleSize
    {| testType := "dependent t-test"; effectSize := e; power := pw; alpha := al;
       groups := g |} in
  sampleSize dependent = sampleSize paired /\
  formula dependent = formula paired /\
  assumptions dependent = assumptions paired /\
  totalSampleSize paired = sampleSize paired /\
  totalSampleSize dependent = sampleSize paired * groups_or_default g.
Proof.
  cbv zeta. rewrite !totalSampleSize_eq, !sampleSize_eq, !formula_eq, !assumptions_eq.
  repeat split; reflexivity.
Qed.

(** ** The strings shown *)

(** The formula and the assumptions shown depend on the test type alone:
    not on the effect size, power, alpha, group count or host. *)
Theorem display_depends_on_test_type_only (host1 host2 : MathHost) (t : string)
    (e1 pw1 al1 : float) (g1 : option float) (e2 pw2 al2 : float) (g2 : option float) :
  let r1 := calculateSampleSize (host := host1)
    {| testType := t; effectSize := e1; power := pw1; alpha := al1; groups := g1 |} in
  let r2 := calculateSampleSize (host := host2)
    {| testType := t; effectSize := e2; power := pw2; alpha := al2; groups := g2 |} in
  formula r1 = formula r2 /\ assumptions r1 = assumptions r2.
Proof.
  cbv zeta. rewrite !formula_eq, !assumptions_eq.
  destruct (dispatch (toLowerCase t)); split; reflexivity.
Qed.

(** * The in-memory storage *)

(** ** Maps *)

Section Maps.

Context {V : Type}.

Lemma Map_get_set (m : JSMap V) (k k' : string) (v : V) :
  Map_get (Map_set m k v) k' = if (k' =? k)%string then Some v else Map_get m k'.
Proof.
  induction m as [ | [k0 v0] m IH]; cbn.
  - rewrite (String.eqb_sym k k'). reflexivity.
  - destruct (k0 =? k)%string eqn:E0; cbn.
    + apply String.eqb_eq in E0. subst k0.
      rewrite (String.eqb_sym k k'). now destruct (k' =? k)%string.
    + destruct (k0 =? k')%string eqn:E1; [ | exact IH].
      apply String.eqb_eq in E1. subst k0. now rewrite E0.
Qed.

(** [set] on a key the map does not hold appends the entry. *)
Lemma Map_set_fresh (m : JSMap V) (k : string) (v : V) :
  Map_get m k = None -> Map_set m k v = m ++ [(k, v)].
Proof.
  induction m as [ | [k0 v0] m IH]; cbn; [reflexivity | ].
  destruct (k0 =? k)%string; [discriminate | ].
  intros H. now rewrite IH.
Qed.

Lemma Map_values_set_fresh (m : JSMap V) (k : string) (v : V) :
  Map_get m k = None -> Map_values (Map_set m k v) = Map_values m ++ [v].
Proof.
  intros H. unfold Map_values. now rewrite Map_set_fresh, map_app.
Qed.

Lemma Forall_Map_set (P : string * V -> Prop) (m : JSMap V) (k : string) (v : V) :
  Forall P m -> P (k, v) -> Forall P (Map_set m k v).
Proof.
  intros Hm Hkv. induction Hm as [ | [k0 v0] m H0 Hm IH]; cbn.
  - constructor; [assumption | constructor].
  - destruct (k0 =? k)%string; constructor; assumption.
Qed.

Lemma Map_get_Forall (P : string * V -> Prop) (m : JSMap V) (k : string) (v : V) :
  Forall P m -> Map_get m k = Some v -> exists k0, (k0 =? k)%string = true /\ P (k0, v).
Proof.
  induction 1 as [ | [k0 v0] m H0 Hm IH]; cbn; [discriminate | ].
  destruct (k0 =? k)%string eqn:E; [ | exact IH].
  intros [= ->]. now exists k0.
Qed.

End Maps.

(** ** Users *)

(** A created user is found under its id, with the name and password
    given; the users under other ids are as before. *)
Theorem createUser_getUser (this : MemStorage) (id id' : string) (insertUser : InsertUser.t) :
  let user := fst (createUser this id insertUser) in
  let this' := snd (createUser this id insertUser) in
  getUser this' id' = (if (id' =? id)%string then Some user else getUser this id') /\
  UserRow.id user = id /\
  UserRow.username user = InsertUser.username insertUser /\
  UserRow.password user = InsertUser.password insertUser.
Proof.
  cbv zeta. unfold getUser, createUser. cbn [fst snd users].
  rewrite Map_get_set. repeat split; reflexivity.
Qed.

(** [createUser] does not reject a name already taken, and the lookup by
    name keeps answering the user created first: after a creation under a
    new id, [getUserByUsername] finds whom it found before, and the new
    user only when it found nobody. *)
Theorem getUserByUsername_after_createUser (this : MemStorage) (id username : string)
    (insertUser : InsertUser.t) :
  getUser this id = None ->
  let user := fst (createUser this id insertUser) in
  let this' := snd (createUser this id insertUser) in
  getUserByUsername this' username
  = match getUserByUsername this username with
    | Some first => Some first
    | None =>
        if (InsertUser.username insertUser =? username)%string then Some user else None
    end.
Proof.
  unfold getUser. intros Fresh. cbv zeta.
  unfold getUserByUsername, createUser. cbn [fst snd users].
  rewrite Map_values_set_fresh by exact Fresh.
  induction (Map_values (users this)) as [ | u l IH]; cbn.
  - reflexivity.
  - destruct (UserRow.username u =? username)%string; [reflexivity | exact IH].
Qed.

Lemma getUserByUsername_after_createUser_witness :
  let first := fst (createUser newMemStorage "id-1" {| InsertUser.username := "ada"; InsertUser.password := "x" |}) in
  let this := snd (createUser newMemStorage "id-1" {| InsertUser.username := "ada"; InsertUser.password := "x" |}) in
  let this' := snd (createUser this "id-2" {| InsertUser.username := "ada"; InsertUser.password := "y" |}) in
  getUserByUsername this' "ada" = Some first.
Proof.
  apply (getUserByUsername_after_createUser
           (snd (createUser newMemStorage "id-1"
                   {| InsertUser.username := "ada"; InsertUser.password := "x" |}))
           "id-2" "ada" {| InsertUser.username := "ada"; InsertUser.password := "y" |}).
  reflexivity.
Defined.

(** ** Rows listed by user *)

Lemma filter_values_set_fresh {V : Type} (f : V -> bool) (m : JSMap V) (k : string) (v : V) :
  Map_get m k = None ->
  filter f (Map_values (Map_set m k v))
  = filter f (Map_values m) ++ (if f v then [v] else []).
Proof.
  intros H. rewrite Map_values_set_fresh by exact H.
  rewrite filter_app. reflexivity.
Qed.

Lemma or_default_user (x : option string) :
  or_default truthy_string x "default-user"%string
  = match x with
    | Some (String c s) => String c s
    | _ => "default-user"%string
    end.
Proof. destruct x as [[ | c s] | ]; reflexivity. Qed.

(** A hypothesis created under a new id comes last in the list of its
    owner and in no other list; the owner is the user id given, and
    "default-user" when none or the empty string is given. *)
Theorem createHypothesis_listed (this : MemStorage) (id : string) (now : Date)
    (insertHypothesis : InsertHypothesis.t) (userId : string) :
  Map_get (hypotheses this) id = None ->
  let hypothesis := fst (createHypothesis this id now insertHypothesis) in
  let this' := snd (createHypothesis this id now insertHypothesis) in
  let owner := match InsertHypothesis.userId insertHypothesis with
               | Some (String c s) => String c s
               | _ => "default-user"%string
               end in
  HypothesisRow.userId hypothesis = owner /\
  getHypothesesByUser this' userId
  = getHypothesesByUser this userId
      ++ (if (owner =? userId)%string then [hypothesis] else []).
Proof.
  intros Fresh. cbv zeta. split.
  - cbn. apply or_default_user.
  - unfold getHypothesesByUser, createHypothesis. cbn [fst snd hypotheses].
    rewrite filter_values_set_fresh by exact Fresh.
    cbn [HypothesisRow.userId]. now rewrite or_default_user.
Qed.

Lemma createHypothesis_listed_witness :
  getHypothesesByUser
    (snd (createHypothesis newMemStorage "h-1" 0%Z
            {| InsertHypothesis.domain := "biology"; InsertHypothesis.question := "q";
               InsertHypothesis.variables := "v"; InsertHypothesis.constraints := Some ""%string;
               InsertHypothesis.generatedContent := "c";
               InsertHypothesis.userId := Some ""%string |}))
    "default-user"
  = [ {| HypothesisRow.id := "h-1"; HypothesisRow.userId := "default-user";
         HypothesisRow.domain := "biology"; HypothesisRow.question := "q";
         HypothesisRow.variables := "v"; HypothesisRow.constraints := None;
         HypothesisRow.generatedContent := "c"; HypothesisRow.createdAt := 0%Z |} ].
Proof.
  apply (createHypothesis_listed newMemStorage "h-1" 0%Z
           {| InsertHypothesis.domain := "biology"; InsertHypothesis.question := "q";
              InsertHypothesis.variables := "v"; InsertHypothesis.constraints := Some ""%string;
              InsertHypothesis.generatedContent := "c";
              InsertHypothesis.userId := Some ""%string |} "default-user").
  reflexivity.
Defined.

(** ** Reachable storages *)

Lemma or_null_no_falsy {A : Type} (truthy : A -> bool) (x : option A) :
  no_falsy truthy (or_null truthy x).
Proof.
  unfold no_falsy. destruct x as [v | ]; cbn; [ | reflexivity].
  destruct (truthy v) eqn:E; cbn; [now rewrite E | reflexivity].
Qed.

Lemma or_default_truthy (x : option string) :
  truthy_string (or_default truthy_string x "default-user"%string) = true.
Proof.
  destruct x as [v | ]; cbn; [ | reflexivity].
  destruct (truthy_string v) eqn:E; [exact E | reflexivity].
Qed.

Lemma no_falsy_Some {A : Type} (truthy : A -> bool) (x : option A) (v : A) :
  no_falsy truthy x -> x = Some v -> truthy v = true.
Proof.
  unfold no_falsy. intros H ->. cbn in H.
  destruct (truthy v); [reflexivity | discriminate].
Qed.

Lemma newMemStorage_invariant : storage_invariant newMemStorage.
Proof. repeat split; constructor. Qed.

Lemma Reachable_invariant (this : MemStorage) : Reachable this -> storage_invariant this.
Proof.
  induction 1 as
    [ | this id ins _ (U & H & M & C & V & P)
      | this id now ins _ (U & H & M & C & V & P)
      | this id now ins _ (U & H & M & C & V & P)
      | this id now ins _ (U & H & M & C & V & P)
      | this id now ins _ (U & H & M & C & V & P)
      | this id now ins _ (U & H & M & C & V & P) ];
    [ exact newMemStorage_invariant | .. ];
    repeat split; try assumption;
    cbn; (apply Forall_Map_set; [assumption | ]);
    repeat split; cbn;
    try reflexivity; try apply or_default_truthy; apply or_null_no_falsy.
Qed.

Lemma In_values_Forall {V : Type} (P : string * V -> Prop) (m : JSMap V) (v : V) :
  Forall P m -> In v (Map_values m) -> exists k, P (k, v).
Proof.
  intros F I. unfold Map_values in I. apply in_map_iff in I.
  destruct I as ([k v'] & E & I). cbn in E. subst v'.
  exists k. rewrite Forall_forall in F. exact (F _ I).
Qed.

Lemma filter_nil_Forall {V : Type} (P : string * V -> Prop) (f : V -> bool) (m : JSMap V) :
  Forall P m -> (forall k v, P (k, v) -> f v = false) ->
  filter f (Map_values m) = [].
Proof.
  intros F H. induction F as [ | [k v] m Hkv _ IH]; cbn; [reflexivity | ].
  now rewrite (H k v Hkv).
Qed.

Lemma truthy_string_not_empty (s : string) :
  truthy_string s = true -> (s =? "")%string = false.
Proof. unfold truthy_string. now destruct (s =? "")%string. Qed.

Lemma sample_storage_Reachable : Reachable sample_storage.
Proof. unfold sample_storage. repeat constructor. Qed.

(** In a reachable storage the lookups by id answer a row that carries the
    id asked for. *)
Theorem reachable_lookup_by_id (this : MemStorage) :
  Reachable this ->
  (forall id user, getUser this id = Some user -> UserRow.id user = id) /\
  (forall id method, getMethod this id = Some method -> MethodRow.id method = id).
Proof.
  intros R. destruct (Reachable_invariant this R) as (U & _ & M & _).
  split.
  - intros id user G. unfold getUser in G.
    destruct (Map_get_Forall _ _ _ _ U G) as (k & E & Hk).
    apply String.eqb_eq in E. subst k. symmetry. exact Hk.
  - intros id method G. unfold getMethod in G.
    destruct (Map_get_Forall _ _ _ _ M G) as (k & E & Hk & _).
    apply String.eqb_eq in E. subst k. symmetry. exact Hk.
Qed.

Lemma reachable_lookup_by_id_witness :
  Reachable sample_storage /\
  (forall id user, getUser sample_storage id = Some user -> UserRow.id user = id) /\
  (forall id method, getMethod sample_storage id = Some method -> MethodRow.id method = id).
Proof.
  split; [exact sample_storage_Reachable | ].
  apply (reachable_lookup_by_id sample_storage). exact sample_storage_Reachable.
Defined.

(** In a reachable storage no row belongs to the empty user id: the five
    lists of the empty user id are empty. *)
Theorem reachable_empty_user_owns_nothing (this : MemStorage) :
  Reachable this ->
  getHypothesesByUser this "" = [] /\
  getMethodsByUser this "" = [] /\
  getSampleSizeCalculationsByUser this "" = [] /\
  getCitationVerificationsByUser this "" = [] /\
  getProtocolsByUser this "" = [].
Proof.
  intros R. destruct (Reachable_invariant this R) as (_ & H & M & C & V & P).
  repeat split.
  - apply (filter_nil_Forall _ _ _ H). intros k v (_ & T & _).
    now apply truthy_string_not_empty.
  - apply (filter_nil_Forall _ _ _ M). intros k v (_ & T & _).
    now apply truthy_string_not_empty.
  - apply (filter_nil_Forall _ _ _ C). intros k v (_ & T).
    now apply truthy_string_not_empty.
  - apply (filter_nil_Forall _ _ _ V). intros k v (_ & T).
    now apply truthy_string_not_empty.
  - apply (filter_nil_Forall _ _ _ P). intros k v (_ & T & _).
    now apply truthy_string_not_empty.
Qed.

Lemma reachable_empty_user_owns_nothing_witness :
  Reachable sample_storage /\
  getHypothesesByUser sample_storage "" = [] /\
  getMethodsByUser sample_storage "" = [] /\
  getSampleSizeCalculationsByUser sample_storage "" = [] /\
  getCitationVerificationsByUser sample_storage "" = [] /\
  getProtocolsByUser sample_storage "" = [].
Proof.
  split; [exact sample_storage_Reachable | ].
  apply (reachable_empty_user_owns_nothing sample_storage). exact sample_storage_Reachable.
Defined.

(** In a reachable storage a nullable column never holds a falsy value,
    which [||] has turned into [null]: a stored method has no confidence of
    0 or NaN and no empty constraints or hypothesis id, and a stored
    protocol has no option set to [false]. *)
Theorem reachable_no_falsy_column (this : MemStorage) :
  Reachable this ->
  (forall id method,
      getMethod this id = Some method ->
      (forall x, MethodRow.confidence method = Some x ->
                 (x =? 0)%float = false /\ is_nan x = false) /\
      (forall s, MethodRow.constraints method = Some s -> (s =? "")%string = false) /\
      (forall s, MethodRow.hypothesisId method = Some s -> (s =? "")%string = false)) /\
  (forall userId protocol,
      In protocol (getProtocolsByUser this userId) ->
      (forall b, ProtocolRow.includeCitations protocol = Some b -> b = true) /\
      (forall b, ProtocolRow.includeEquipment protocol = Some b -> b = true) /\
      (forall b, ProtocolRow.includeCostEstimates protocol = Some b -> b = true)).
Proof.
  intros R. destruct (Reachable_invariant this R) as (_ & _ & M & _ & _ & P).
  split.
  - intros id method G. unfold getMethod in G.
    destruct (Map_get_Forall _ _ _ _ M G) as (k & _ & _ & _ & Hh & Hc & _ & Hx).
    cbn [snd] in Hh, Hc, Hx. repeat split.
    + pose proof (no_falsy_Some _ _ _ Hx H) as T. unfold truthy_number in T.
      now destruct (x =? 0)%float.
    + pose proof (no_falsy_Some _ _ _ Hx H) as T. unfold truthy_number in T.
      destruct (x =? 0)%float; [discriminate | ]. now destruct (is_nan x).
    + intros s E. apply truthy_string_not_empty. exact (no_falsy_Some _ _ _ Hc E).
    + intros s E. apply truthy_string_not_empty. exact (no_falsy_Some _ _ _ Hh E).
  - intros userId protocol I. unfold getProtocolsByUser in I.
    apply filter_In in I. destruct I as (I & _).
    destruct (In_values_Forall _ _ _ P I) as (k & _ & _ & H1 & H2 & H3).
    cbn [snd] in H1, H2, H3. repeat split; intros b E.
    + exact (no_falsy_Some _ _ _ H1 E).
    + exact (no_falsy_Some _ _ _ H2 E).
    + exact (no_falsy_Some _ _ _ H3 E).
Qed.

Lemma reachable_no_falsy_column_witness :
  Reachable sample_storage /\
  getMethod sample_storage "m-1"
  = Some {| MethodRow.id := "m-1"; MethodRow.userId := "default-user";
            MethodRow.hypothesisId := None; MethodRow.hypothesis := "h";
            MethodRow.variables := "v"; MethodRow.constraints := None;
            MethodRow.primaryMethods := JArray []; MethodRow.alternativeMethod := None;
            MethodRow.confidence := None; MethodRow.createdAt := 0%Z |} /\
  (forall x,
      MethodRow.confidence
        {| MethodRow.id := "m-1"; MethodRow.userId := "default-user";
           MethodRow.hypothesisId := None; MethodRow.hypothesis := "h";
           MethodRow.variables := "v"; MethodRow.constraints := None;
           MethodRow.primaryMethods := JArray []; MethodRow.alternativeMethod := None;
           MethodRow.confidence := None; MethodRow.createdAt := 0%Z |} = Some x ->
      (x =? 0)%float = false /\ is_nan x = false).
Proof.
  split; [exact sample_storage_Reachable | ].
  split; [reflexivity | ].
  exact (proj1 (proj1 (reachable_no_falsy_column sample_storage sample_storage_Reachable)
                  "m-1"%string _ eq_refl)).
Defined.

(** * The sample-size routes *)

(** A body that lacks a parameter, or whose test type is the empty string,
    is answered with status 400 and the message of the guard, and nothing
    is stored. *)
Theorem postSampleSizeCalculate_rejects {host : MathHost} (storage : MemStorage)
    (id : string) (now : Date) (body : SampleSizeBody.t) :
  SampleSizeBody.testType body = None \/
  SampleSizeBody.testType body = Some ""%string \/
  SampleSizeBody.effectSize body = None \/
  SampleSizeBody.power body = None \/
  SampleSizeBody.alpha body = None ->
  postSampleSizeCalculate storage id now body
  = (Status400 "All parameters are required for sample size calculation", storage).
Proof.
  unfold postSampleSizeCalculate.
  intros [H | [H | [H | [H | H]]]]; rewrite H.
  - reflexivity.
  - now destruct (SampleSizeBody.effectSize body), (SampleSizeBody.power body),
      (SampleSizeBody.alpha body).
  - now destruct (SampleSizeBody.testType body).
  - now destruct (SampleSizeBody.testType body), (SampleSizeBody.effectSize body).
  - now destruct (SampleSizeBody.testType body), (SampleSizeBody.effectSize body),
      (SampleSizeBody.power body).
Qed.

Lemma postSampleSizeCalculate_rejects_witness :
  postSampleSizeCalculate (host := nan_host) newMemStorage "c-1" 0%Z
    {| SampleSizeBody.testType := Some ""%string; SampleSizeBody.effectSize := Some 0.5;
       SampleSizeBody.power := Some 0.8; SampleSizeBody.alpha := Some 0.05 |}
  = (Status400 "All parameters are required for sample size calculation", newMemStorage).
Proof.
  apply (postSampleSizeCalculate_rejects (host := nan_host) newMemStorage "c-1" 0%Z
           {| SampleSizeBody.testType := Some ""%string; SampleSizeBody.effectSize := Some 0.5;
              SampleSizeBody.power := Some 0.8; SampleSizeBody.alpha := Some 0.05 |}).
  right. left. reflexivity.
Defined.

(** A complete body is answered with the id of the stored row and the
    result of [calculateSampleSize] called without a group count, whatever
    the numbers are; under a new id the row comes last in what [GET /api/sample-size]
    lists, it holds the body's parameters, the three sizes and the formula
    of the result, the assumptions joined by "; ", and the other tables
    are as before. *)
Theorem postSampleSizeCalculate_stores {host : MathHost} (storage : MemStorage)
    (id : string) (now : Date) (c : ascii) (s : string) (e pw al : float) :
  Map_get (sampleSizeCalculations storage) id = None ->
  let body := {| SampleSizeBody.testType := Some (String c s);
                 SampleSizeBody.effectSize := Some e;
                 SampleSizeBody.power := Some pw;
                 SampleSizeBody.alpha := Some al |} in
  let result := calculateSampleSize
                  {| testType := String c s; effectSize := e; power := pw; alpha := al;
                     groups := None |} in
  let row := {| SampleSizeCalculationRow.id := id;
                SampleSizeCalculationRow.userId := "default-user";
                SampleSizeCalculationRow.testType := String c s;
                SampleSizeCalculationRow.effectSize := e;
                SampleSizeCalculationRow.power := pw;
                SampleSizeCalculationRow.alpha := al;
                SampleSizeCalculationRow.sampleSize := sampleSize result;
                SampleSizeCalculationRow.totalSampleSize := totalSampleSize result;
                SampleSizeCalculationRow.adjustedSampleSize := adjustedSampleSize result;
                SampleSizeCalculationRow.formula := formula result;
                SampleSizeCalculationRow.assumptions :=
                  String.concat "; " (assumptions result);
                SampleSizeCalculationRow.createdAt := now |} in
  let storage' := snd (postSampleSizeCalculate storage id now body) in
  fst (postSampleSizeCalculate storage id now body) = Status200 id result /\
  getSampleSize storage' = getSampleSize storage ++ [row] /\
  users storage' = users storage /\
  hypotheses storage' = hypotheses storage /\
  methods storage' = methods storage /\
  citationVerifications storage' = citationVerifications storage /\
  protocols storage' = protocols storage.
Proof.
  intros Fresh. cbv zeta.
  unfold postSampleSizeCalculate. cbn [SampleSizeBody.testType SampleSizeBody.effectSize
    SampleSizeBody.power SampleSizeBody.alpha truthy_string String.eqb negb].
  unfold createSampleSizeCalculation. cbn [fst snd SampleSizeCalculationRow.id
    users hypotheses methods citationVerifications protocols].
  split; [reflexivity | ].
  split; [ | repeat split ].
  unfold getSampleSize, getSampleSizeCalculationsByUser. cbn [sampleSizeCalculations].
  rewrite filter_values_set_fresh by exact Fresh.
  reflexivity.
Qed.

Lemma postSampleSizeCalculate_stores_witness :
  fst (postSampleSizeCalculate (host := nan_host) newMemStorage "c-1" 0%Z
         {| SampleSizeBody.testType := Some "Paired t-test"%string;
            SampleSizeBody.effectSize := Some 0.5;
            SampleSizeBody.power := Some 0.8; SampleSizeBody.alpha := Some 0.05 |})
  = Status200 "c-1"
      (calculateSampleSize (host := nan_host)
         {| testType := "Paired t-test"; effectSize := 0.5; power := 0.8; alpha := 0.05;
            groups := None |}).
Proof.
  apply (postSampleSizeCalculate_stores (host := nan_host) newMemStorage "c-1" 0%Z
           "P"%char "aired t-test"%string 0.5 0.8 0.05).
  reflexivity.
Defined.

Lemma In_values_set {V : Type} (m : JSMap V) (k : string) (v : V) :
  In v (Map_values (Map_set m k v)).
Proof.
  induction m as [ | [k0 v0] m IH]; cbn; [now left | ].
  destruct (k0 =? k)%string; cbn; [now left | now right].
Qed.

Lemma zero_effect_sizes {host : MathHost} (params : SampleSizeParams) :
  (effectSize params =? 0) = true ->
  is_finite (sampleSize (calculateSampleSize params)) = false /\
  is_finite (totalSampleSize (calculateSampleSize params)) = false /\
  is_finite (adjustedSampleSize (calculateSampleSize params)) = false.
Proof.
  destruct params as [t e pw al g]. cbn [effectSize]. intros Z.
  assert (S : is_finite (sampleSize (calculateSampleSize
                {| testType := t; effectSize := e; power := pw; alpha := al; groups := g |}))
              = false).
  { rewrite sampleSize_eq. now apply branch_zero_effect. }
  assert (T : is_finite (totalSampleSize (calculateSampleSize
                {| testType := t; effectSize := e; power := pw; alpha := al; groups := g |}))
              = false).
  { rewrite totalSampleSize_eq.
    destruct (includes _ _); [ exact S | now apply mul_not_finite ]. }
  repeat split; try assumption.
  rewrite adjustedSampleSize_eq.
  now apply Math_ceil_keeps_not_finite, mul_not_finite.
Qed.

(** The route does not check the numbers: a complete body with effect size
    0 or -0 is answered with status 200 and sizes that are not finite, and
    a row with those sizes is stored and listed by [GET /api/sample-size]. *)
Theorem postSampleSizeCalculate_accepts_zero_effect {host : MathHost} (storage : MemStorage)
    (id : string) (now : Date) (c : ascii) (s : string) (e pw al : float) :
  (e =? 0) = true ->
  let body := {| SampleSizeBody.testType := Some (String c s);
                 SampleSizeBody.effectSize := Some e;
                 SampleSizeBody.power := Some pw;
                 SampleSizeBody.alpha := Some al |} in
  exists result row,
    fst (postSampleSizeCalculate storage id now body) = Status200 id result /\
    is_finite (sampleSize result) = false /\
    is_finite (totalSampleSize result) = false /\
    is_finite (adjustedSampleSize result) = false /\
    In row (getSampleSize (snd (postSampleSizeCalculate storage id now body))) /\
    SampleSizeCalculationRow.id row = id /\
    is_finite (SampleSizeCalculationRow.sampleSize row) = false /\
    is_finite (SampleSizeCalculationRow.totalSampleSize row) = false /\
    is_finite (SampleSizeCalculationRow.adjustedSampleSize row) = false.
Proof.
  intros Z. cbv zeta.
  unfold postSampleSizeCalculate. cbn [SampleSizeBody.testType SampleSizeBody.effectSize
    SampleSizeBody.power SampleSizeBody.alpha truthy_string String.eqb negb].
  unfold createSampleSizeCalculation. cbn [fst snd SampleSizeCalculationRow.id].
  destruct (zero_effect_sizes
              {| testType := String c s; effectSize := e; power := pw; alpha := al;
                 groups := None |} Z) as (S & T & A).
  eexists. eexists.
  split; [reflexivity | ].
  split; [exact S | ]. split; [exact T | ]. split; [exact A | ].
  split.
  - unfold getSampleSize, getSampleSizeCalculationsByUser. cbn [sampleSizeCalculations].
    apply filter_In. split; [apply In_values_set | reflexivity].
  - cbn. repeat split; assumption.
Qed.

Lemma postSampleSizeCalculate_accepts_zero_effect_witness :
  exists result row,
    fst (postSampleSizeCalculate (host := nan_host) newMemStorage "c-1" 0%Z
           {| SampleSizeBody.testType := Some "ANOVA"%string;
              SampleSizeBody.effectSize := Some (-0);
              SampleSizeBody.power := Some 0.8; SampleSizeBody.alpha := Some 0.05 |})
    = Status200 "c-1" result /\
    is_finite (sampleSize result) = false /\
    is_finite (totalSampleSize result) = false /\
    is_finite (adjustedSampleSize result) = false /\
    In row
      (getSampleSize
         (snd (postSampleSizeCalculate (host := nan_host) newMemStorage "c-1" 0%Z
                 {| SampleSizeBody.testType := Some "ANOVA"%string;
                    SampleSizeBody.effectSize := Some (-0);
                    SampleSizeBody.power := Some 0.8;
                    SampleSizeBody.alpha := Some 0.05 |}))) /\
    SampleSizeCalculationRow.id row = "c-1"%string /\
    is_finite (SampleSizeCalculationRow.sampleSize row) = false /\
    is_finite (SampleSizeCalculationRow.totalSampleSize row) = false /\
    is_finite (SampleSizeCalculationRow.adjustedSampleSize row) = false.
Proof.
  apply (postSampleSizeCalculate_accepts_zero_effect (host := nan_host) newMemStorage
           "c-1" 0%Z "A"%char "NOVA"%string (-0) 0.8 0.05).
  reflexivity.
Defined.

(** * The client *)

(** ** The protocol exporter's method selection *)

(** After a checkbox reports [checked] for a method, that method's checkbox
    shows [checked], and every other checkbox shows what it showed. *)
Theorem handleMethodSelection_checked (formData : ProtocolFormData.t)
    (methodId other : string) (checked : bool) :
  methodChecked (handleMethodSelection formData methodId checked) other
  = if (other =? methodId)%string then checked else methodChecked formData other.
Proof.
  unfold methodChecked, handleMethodSelection. cbn [ProtocolFormData.selectedMethods].
  destruct checked.
  - rewrite existsb_app. cbn. rewrite orb_false_r.
    rewrite (String.eqb_sym methodId other).
    destruct (other =? methodId)%string eqn:E; [apply orb_true_r | apply orb_false_r].
  - induction (ProtocolFormData.selectedMethods formData) as [ | x l IH]; cbn.
    + now destruct (other =? methodId)%string.
    + destruct (x =? methodId)%string eqn:Ex; cbn.
      * rewrite IH. destruct (other =? methodId)%string eqn:Eo; [reflexivity | ].
        apply String.eqb_eq in Ex. subst x.
        rewrite (String.eqb_sym methodId other), Eo. reflexivity.
      * rewrite IH. destruct (other =? methodId)%string eqn:Eo; [ | reflexivity].
        apply String.eqb_eq in Eo. subst other. rewrite Ex. reflexivity.
Qed.

Lemma existsb_eqb_In (l : list string) (x : string) :
  existsb (fun id => (id =? x)%string) l = false -> ~ In x l.
Proof.
  intros H I. assert (T : existsb (fun id => (id =? x)%string) l = true).
  { apply existsb_exists. exists x. split; [exact I | apply String.eqb_refl]. }
  congruence.
Qed.

(** A selection without repetition stays so when a checkbox is toggled,
    that is when [checked] is the opposite of what the checkbox shows. *)
Theorem handleMethodSelection_toggle_NoDup (formData : ProtocolFormData.t)
    (methodId : string) :
  NoDup (ProtocolFormData.selectedMethods formData) ->
  NoDup (ProtocolFormData.selectedMethods
           (handleMethodSelection formData methodId (negb (methodChecked formData methodId)))).
Proof.
  intros N. unfold handleMethodSelection, methodChecked.
  cbn [ProtocolFormData.selectedMethods].
  destruct (existsb _ _) eqn:E; cbn [negb].
  - now apply NoDup_filter.
  - apply NoDup_app; [exact N | repeat constructor; intros [] | ].
    intros x Ix [<- | []]. exact (existsb_eqb_In _ _ E Ix).
Qed.

Lemma handleMethodSelection_toggle_NoDup_witness :
  NoDup (ProtocolFormData.selectedMethods
           (handleMethodSelection
              {| ProtocolFormData.selectedMethods := ["m-1"; "m-2"]%string;
                 ProtocolFormData.selectedFormat := "pdf";
                 ProtocolFormData.title := "t";
                 ProtocolFormData.includeCitations := true;
                 ProtocolFormData.includeEquipment := true;
                 ProtocolFormData.includeCostEstimates := false |}
              "m-3" true)).
Proof.
  apply (handleMethodSelection_toggle_NoDup
           {| ProtocolFormData.selectedMethods := ["m-1"; "m-2"]%string;
              ProtocolFormData.selectedFormat := "pdf";
              ProtocolFormData.title := "t";
              ProtocolFormData.includeCitations := true;
              ProtocolFormData.includeEquipment := true;
              ProtocolFormData.includeCostEstimates := false |}
           "m-3"%string).
  cbn. repeat constructor; cbn; intuition discriminate.
Defined.

(** ** The dashboard and the sidebar *)

(** The three [switch] statements of the dashboard agree: two locations
    that render the same page show the same title and description. *)
Theorem dashboard_switches_agree (location location' : string) :
  renderContent location = renderContent location' ->
  getPageTitle location = getPageTitle location' /\
  getPageDescription location = getPageDescription location'.
Proof.
  unfold renderContent, getPageTitle, getPageDescription.
  destruct (location =? "/hypothesis")%string;
    [ | destruct (location =? "/methods")%string;
        [ | destruct (location =? "/sample-size")%string;
            [ | destruct (location =? "/citations")%string;
                [ | destruct (location =? "/protocols")%string ] ] ] ];
  (destruct (location' =? "/hypothesis")%string;
    [ | destruct (location' =? "/methods")%string;
        [ | destruct (location' =? "/sample-size")%string;
            [ | destruct (location' =? "/citations")%string;
                [ | destruct (location' =? "/protocols")%string ] ] ] ]);
  intros H; try discriminate H; split; reflexivity.
Qed.

Lemma dashboard_switches_agree_witness :
  getPageTitle "/" = getPageTitle "/methods" /\
  getPageDescription "/" = getPageDescription "/methods".
Proof.
  apply (dashboard_switches_agree "/" "/methods"). reflexivity.
Defined.

(** At a location that is the href of no item of the sidebar, so that no
    item is highlighted, the dashboard shows the methods recommender with
    its title and description. *)
Theorem no_active_item_shows_methods (location : string) :
  existsb (isActive location) navigation = false ->
  renderContent location = MethodsRecommenderPage /\
  getPageTitle location = "Research Methods Recommender"%string /\
  getPageDescription location
  = "Generate evidence-based research methods for your study"%string.
Proof.
  unfold navigation, isActive, renderContent, getPageTitle, getPageDescription.
  cbn [existsb fst snd].
  destruct (location =? "/hypothesis")%string; [discriminate | ].
  destruct (location =? "/methods")%string; [discriminate | ].
  destruct (location =? "/sample-size")%string; [discriminate | ].
  destruct (location =? "/citations")%string; [discriminate | ].
  destruct (location =? "/protocols")%string; [discriminate | ].
  intros _. repeat split.
Qed.

Lemma no_active_item_shows_methods_witness :
  renderContent "/" = MethodsRecommenderPage /\
  getPageTitle "/" = "Research Methods Recommender"%string /\
  getPageDescription "/"
  = "Generate evidence-based research methods for your study"%string.
Proof.
  apply (no_active_item_shows_methods "/"). reflexivity.
Defined.
